(** * ESP32 OTA update manager: a shallow embedding of [otaWebUpdater.cpp]

    The class [OTAWEBUPDATER] is modelled as a record of its data members.
    Every member function becomes a computation in a small monad that
    threads the object, collects the calls made to the outside world
    (HTTP client, the Arduino [Update] flasher, the logger, [ESP.restart])
    as a trace of events, and stops when the device restarts.  Whatever the
    outside world answers (HTTP status, stream contents, allocation
    outcome, ...) is an explicit argument of the function that asks. *)

From Stdlib Require Import String Ascii ZArith List Bool Lia DecimalString.
Import ListNotations.

Open Scope string_scope.
Open Scope Z_scope.

(** ** Machine integers *)

Module MachineInt.

(** [uint32_t] / [size_t] / [unsigned long] on the ESP32. *)
Definition wrap_u32 (z : Z) : Z := z mod 2 ^ 32.

(** [uint64_t]. *)
Definition wrap_u64 (z : Z) : Z := z mod 2 ^ 64.

(** [int], two's complement. *)
Definition wrap_i32 (z : Z) : Z := (z + 2 ^ 31) mod 2 ^ 32 - 2 ^ 31.

Definition INT_MAX : Z := 2 ^ 31 - 1.

End MachineInt.
Export MachineInt.

(** ** Arduino [String] *)

Module ArduinoString.

Definition isEmpty (s : string) : bool :=
  match s with EmptyString => true | String _ _ => false end.

Definition length (s : string) : Z := Z.of_nat (String.length s).

(** [String::indexOf(const String&)]: position of the first occurrence,
    or -1. *)
Fixpoint indexOf_from (i : Z) (s pat : string) : Z :=
  if String.prefix pat s then i
  else match s with
       | EmptyString => -1
       | String _ s' => indexOf_from (i + 1) s' pat
       end.

Definition indexOf (s pat : string) : Z :=
  if length s <=? 0 then -1 else indexOf_from 0 s pat.

(** [operator>] is [compareTo(rhs) > 0], i.e. [strcmp] on the bytes. *)
Definition gt (a b : string) : bool :=
  match String.compare a b with Gt => true | _ => false end.

(** [String(int)]: decimal rendering. *)
Definition ofZ (z : Z) : string := NilZero.string_of_int (Z.to_int z).

(** The double quote character, for JSON literals. *)
Definition dq : string := String (ascii_of_nat 34) EmptyString.

End ArduinoString.

(** ** The object *)

Record OTA := mkOTA {
  otaIsRunning : bool;
  newReleaseAvailable : bool;
  baseUrl : string;
  lastVersionCheckMillis : Z;       (* uint64_t *)
  intervalVersionCheckMillis : Z;   (* uint64_t *)
  currentFwDate : string;
  currentFwRelease : string;
  networkReady : bool;
  initialCheck : bool;
  otaPassword : string
}.

(** The member initialisers of [otaWebUpdater.h]. *)
Definition initialOTA : OTA := {|
  otaIsRunning := false;
  newReleaseAvailable := false;
  baseUrl := EmptyString;
  lastVersionCheckMillis := 0;
  intervalVersionCheckMillis := 24 * 60 * 60 * 1000;
  currentFwDate := EmptyString;
  currentFwRelease := EmptyString;
  networkReady := false;
  initialCheck := false;
  otaPassword := EmptyString
|}.

Definition with_otaIsRunning (b : bool) (s : OTA) : OTA :=
  mkOTA b (newReleaseAvailable s) (baseUrl s) (lastVersionCheckMillis s)
    (intervalVersionCheckMillis s) (currentFwDate s) (currentFwRelease s)
    (networkReady s) (initialCheck s) (otaPassword s).

Definition with_newReleaseAvailable (b : bool) (s : OTA) : OTA :=
  mkOTA (otaIsRunning s) b (baseUrl s) (lastVersionCheckMillis s)
    (intervalVersionCheckMillis s) (currentFwDate s) (currentFwRelease s)
    (networkReady s) (initialCheck s) (otaPassword s).

Definition with_baseUrl (u : string) (s : OTA) : OTA :=
  mkOTA (otaIsRunning s) (newReleaseAvailable s) u (lastVersionCheckMillis s)
    (intervalVersionCheckMillis s) (currentFwDate s) (currentFwRelease s)
    (networkReady s) (initialCheck s) (otaPassword s).

Definition with_lastVersionCheckMillis (t : Z) (s : OTA) : OTA :=
  mkOTA (otaIsRunning s) (newReleaseAvailable s) (baseUrl s) t
    (intervalVersionCheckMillis s) (currentFwDate s) (currentFwRelease s)
    (networkReady s) (initialCheck s) (otaPassword s).

Definition with_intervalVersionCheckMillis (t : Z) (s : OTA) : OTA :=
  mkOTA (otaIsRunning s) (newReleaseAvailable s) (baseUrl s)
    (lastVersionCheckMillis s) t (currentFwDate s) (currentFwRelease s)
    (networkReady s) (initialCheck s) (otaPassword s).

Definition with_initialCheck (b : bool) (s : OTA) : OTA :=
  mkOTA (otaIsRunning s) (newReleaseAvailable s) (baseUrl s)
    (lastVersionCheckMillis s) (intervalVersionCheckMillis s)
    (currentFwDate s) (currentFwRelease s) (networkReady s) b (otaPassword s).

Definition with_otaPassword (p : string) (s : OTA) : OTA :=
  mkOTA (otaIsRunning s) (newReleaseAvailable s) (baseUrl s)
    (lastVersionCheckMillis s) (intervalVersionCheckMillis s)
    (currentFwDate s) (currentFwRelease s) (networkReady s) (initialCheck s) p.

(** [setFirmware] of the header. *)
Definition setFirmware (fwDate fwRelease : string) (s : OTA) : OTA :=
  mkOTA (otaIsRunning s) (newReleaseAvailable s) (baseUrl s)
    (lastVersionCheckMillis s) (intervalVersionCheckMillis s)
    fwDate fwRelease (networkReady s) (initialCheck s) (otaPassword s).

(** ** Calls to the outside world *)

(** The command passed to [Update.begin]. *)
Inductive UpdateCmd := U_FLASH | U_SPIFFS.

Inductive Event :=
| EvLog (msg : string)                      (* logMessage(msg) *)
| EvAllocFailed                             (* new uint8_t[] threw bad_alloc *)
| EvAlloc                                   (* new uint8_t[] succeeded *)
| EvFree                                    (* delete[] buffer *)
| EvHttpBegin (url : string)                (* http.begin(client, url) *)
| EvHttpGet                                 (* http.GET() *)
| EvHttpEnd                                 (* http.end() *)
| EvUpdateBegin (cmd : UpdateCmd)           (* Update.begin(UPDATE_SIZE_UNKNOWN, cmd) *)
| EvUpdateWrite (len : Z)                   (* Update.write(buffer, len) *)
| EvUpdateEnd                               (* Update.end(true) *)
| EvDelay (ms : Z)                          (* delay(ms) *)
| EvSend (code : Z) (body : string)         (* request->send(code, "application/json", body) *)
| EvNvsPut (key : string) (value : Z)       (* preferences.putULong64(key, value) *)
| EvRestart.                                (* ESP.restart() *)

(** ** The monad: object state, event trace, and restart *)

Inductive Outcome (A : Type) :=
| Returned (a : A) (s : OTA)   (* the function returned [a], the object is [s] *)
| Restarted.                   (* [ESP.restart()] was reached: nothing returns *)
Arguments Returned {A} a s.
Arguments Restarted {A}.

Definition M (A : Type) : Type := OTA -> Outcome A * list Event.

Definition ret {A} (a : A) : M A := fun s => (Returned a s, []).

Definition bind {A B} (m : M A) (k : A -> M B) : M B :=
  fun s =>
    match m s with
    | (Returned a s', t) => let (r, t') := k a s' in (r, (t ++ t')%list)
    | (Restarted, t) => (Restarted, t)
    end.

Notation "x <- m ;; k" := (bind m (fun x => k))
  (at level 61, m at next level, right associativity).
Notation "m ;; k" := (bind m (fun _ => k))
  (at level 61, right associativity).

Definition emit (e : Event) : M unit := fun s => (Returned tt s, [e]).
Definition get : M OTA := fun s => (Returned s s, []).
Definition modify (f : OTA -> OTA) : M unit := fun s => (Returned tt (f s), []).
Definition restart : M unit := fun _ => (Restarted, [EvRestart]).

Definition logMessage (msg : string) : M unit := emit (EvLog msg).

(** Projections of a run. *)
Definition trace {A} (r : Outcome A * list Event) : list Event := snd r.
Definition outcome {A} (r : Outcome A * list Event) : Outcome A := fst r.

Definition result {A} (r : Outcome A * list Event) : option A :=
  match fst r with Returned a _ => Some a | Restarted => None end.

Definition final {A} (r : Outcome A * list Event) : option OTA :=
  match fst r with Returned _ s => Some s | Restarted => None end.

(** ** [updateFile]: download one image and hand it to the flasher *)

Import ArduinoString.

(** What the network answers during one pass of the read loop:
    [http.connected()], [stream->available()] (an [int]) and how many bytes
    the stream hands over before [readBytes] gives up. *)
Record Poll := mkPoll {
  connected : bool;
  available : Z;
  delivered : Z
}.

(** What the outside world answers during one call of [updateFile].
    [polls] lists the answers given to the successive passes of the read
    loop; its end stands for the connection being closed, so that
    [http.connected()] is false from then on.  The answers are arbitrary:
    every run of the loop that comes to an end is the run on some script.
    A connection that stays open for ever without delivering the awaited
    bytes keeps the source in its loop; such a run has no script and no
    result, and nothing below speaks about it. *)
Record Download := mkDownload {
  alloc_ok : bool;          (* does [new uint8_t[128*1024]] succeed *)
  http_code : Z;            (* http.GET() *)
  content_length : Z;       (* http.getSize(), -1 without Content-Length *)
  polls : list Poll
}.

Definition bufferAllocationLen : Z := 128 * 1024.

Definition nl : string := String (ascii_of_nat 10) EmptyString.

(** [filename.indexOf("spiffs") > -1 || filename.indexOf("littlefs") > -1
     ? U_SPIFFS : U_FLASH] *)
Definition filetype_of (filename : string) : UpdateCmd :=
  if (-1 <? indexOf filename "spiffs") || (-1 <? indexOf filename "littlefs")
  then U_SPIFFS else U_FLASH.

(** [stream->readBytes(buffer, n)]: at most [n] bytes, never negative. *)
Definition readBytes (p : Poll) (n : Z) : Z := Z.min (Z.max 0 (delivered p)) n.

(** The [while] loop of [updateFile] (lines 530-554).  [len] and
    [currentLength] are [int]s; [size] is a [size_t].  The loop yields
    [true] when it leaves through the [return true] of the completed update
    and [false] when the loop condition fails. *)
Fixpoint updateFile_loop (ps : list Poll) (totalLength len currentLength : Z)
  : M bool :=
  match ps with
  | [] => ret false
  | p :: rest =>
      if connected p && ((0 <? len) || (len =? -1)) then
        let size := wrap_u32 (available p) in
        if negb (size =? 0) then
          let readBufLen :=
            readBytes p (if wrap_u32 bufferAllocationLen <? size
                         then bufferAllocationLen else size) in
          let len' := if 0 <? len then len - readBufLen else len in
          emit (EvUpdateWrite readBufLen) ;;
          logMessage ("[OTA] Status: " ++ ofZ currentLength) ;;
          let currentLength' := wrap_i32 (currentLength + readBufLen) in
          if negb (currentLength' =? totalLength) then
            updateFile_loop rest totalLength len' currentLength'
          else
            emit EvUpdateEnd ;;
            emit EvHttpEnd ;;
            logMessage nl ;;
            logMessage ("[OTA] Upgrade successfully executed. Wrote bytes: "
                        ++ ofZ currentLength') ;;
            modify (with_otaIsRunning false) ;;
            emit EvFree ;;
            ret true
        else
          emit (EvDelay 1) ;;
          updateFile_loop rest totalLength len currentLength
      else ret false
  end.

(** [bool OTAWEBUPDATER::updateFile(String baseUrl, String filename)]
    (lines 484-560).  The values returned by [Update.begin], [Update.write]
    and [Update.end] are not looked at by the source, so they are no part
    of [Download]. *)
Definition updateFile (d : Download) (baseUrl filename : string) : M bool :=
  if isEmpty baseUrl then
    logMessage "[OTA] No baseUrl configured" ;;
    ret false
  else
    modify (with_otaIsRunning true) ;;
    let filetype := filetype_of filename in
    let firmwareUrl := baseUrl ++ "/" ++ filename in
    if negb (alloc_ok d) then
      emit EvAllocFailed ;;
      logMessage ("[OTA] Unable to request memory with malloc("
                  ++ ofZ (bufferAllocationLen + 1) ++ ")") ;;
      modify (with_otaIsRunning false) ;;
      ret false
    else
      emit EvAlloc ;;
      emit (EvHttpBegin firmwareUrl) ;;
      logMessage ("[OTA] Firmware type: "
                  ++ match filetype with U_SPIFFS => "spiffs" | U_FLASH => "flash" end) ;;
      logMessage ("[OTA] Firmware url:  " ++ firmwareUrl) ;;
      emit EvHttpGet ;;
      done <- (if http_code d =? 200 then
                 let totalLength := content_length d in
                 emit (EvUpdateBegin filetype) ;;
                 logMessage ("[OTA] Firmware size: " ++ ofZ totalLength) ;;
                 logMessage "[OTA] Begin firmware upgrade..." ;;
                 updateFile_loop (polls d) totalLength totalLength 0
               else ret false) ;;
      if (done : bool) then ret true
      else
        modify (with_otaIsRunning false) ;;
        emit EvFree ;;
        ret false.

(** ** [executeUpdate] *)

(** [void OTAWEBUPDATER::executeUpdate()] (lines 565-578); [&&] does not
    evaluate its second operand when the first is false. *)
Definition executeUpdate (d_fs d_app : Download) : M unit :=
  s <- get ;;
  if isEmpty (baseUrl s) then
    logMessage "[OTA] No baseUrl configured"
  else
    modify (with_otaIsRunning true) ;;
    ok_fs <- updateFile d_fs (baseUrl s) "littlefs.bin" ;;
    ok <- (if (ok_fs : bool) then updateFile d_app (baseUrl s) "firmware.bin"
           else ret false) ;;
    if (ok : bool) then restart
    else
      modify (with_otaIsRunning false) ;;
      logMessage "[OTA] Failed to update firmware".

(** ** [checkAvailableVersion] *)

(** A member of the parsed metadata document, as ArduinoJson sees it. *)
Inductive JsonMember :=
| JAbsent                  (* no such key, or the document did not parse *)
| JNull                    (* the JSON literal null *)
| JString (s : string)
| JOther (text : string).  (* number, boolean, ...: [text] is its JSON text *)

(** [doc[key].as<String>()] *)
Definition as_String (m : JsonMember) : string :=
  match m with
  | JAbsent => "null"
  | JNull => "null"
  | JString s => s
  | JOther text => text
  end.

(** The document fetched from [baseUrl + "/current-version.json"]. *)
Record Metadata := mkMetadata {
  md_date : JsonMember;
  md_revision : JsonMember
}.

(** The test that rejects the response:
    [date.isEmpty() || revision.isEmpty() || date == "null" || revision == "null"] *)
Definition invalid_response (date revision : string) : bool :=
  isEmpty date || isEmpty revision
  || (date =? "null")%string || (revision =? "null")%string.

(** [bool OTAWEBUPDATER::checkAvailableVersion()] (lines 439-474) *)
Definition checkAvailableVersion (doc : Metadata) : M bool :=
  s <- get ;;
  if isEmpty (baseUrl s) then
    logMessage "[OTA] No baseUrl configured" ;;
    ret false
  else
    emit (EvHttpBegin (baseUrl s ++ "/current-version.json")) ;;
    emit EvHttpGet ;;
    emit EvHttpEnd ;;
    let date := as_String (md_date doc) in
    let revision := as_String (md_revision doc) in
    if invalid_response date revision then
      logMessage ("[OTA] Invalid response or json in " ++ baseUrl s
                  ++ "/current-version.json") ;;
      ret false
    else
      (if gt date (currentFwDate s) then
         logMessage ("[OTA] Newer firmware available: " ++ date ++ " vs "
                     ++ currentFwDate s) ;;
         modify (with_newReleaseAvailable true)
       else ret tt) ;;
      logMessage "[OTA] No newer firmware available" ;;
      ret true.

(** ** [loop]: one tick of the background task *)

(** What the outside world answers during one tick. *)
Record Tick := mkTick {
  millis1 : Z;              (* first [millis()], an unsigned long *)
  millis2 : Z;              (* second [millis()] *)
  tk_doc : Metadata;        (* the metadata document, if it is fetched *)
  tk_fs : Download;         (* the download of littlefs.bin, if it happens *)
  tk_app : Download         (* the download of firmware.bin, if it happens *)
}.

(** [void OTAWEBUPDATER::loop()] (lines 419-432).  [millis()] is an
    [unsigned long] and the difference is taken in 64 bits. *)
Definition loop (tk : Tick) : M unit :=
  s0 <- get ;;
  (if newReleaseAvailable s0 then executeUpdate (tk_fs tk) (tk_app tk)
   else ret tt) ;;
  s <- get ;;
  if networkReady s then
    due <- (if initialCheck s then
              if wrap_u64 (millis1 tk - lastVersionCheckMillis s)
                 <? intervalVersionCheckMillis s
              then ret false
              else modify (with_lastVersionCheckMillis (millis2 tk)) ;; ret true
            else modify (with_initialCheck true) ;; ret true) ;;
    if (due : bool) then
      if isEmpty (baseUrl s) then ret tt
      else
        logMessage "[OTA] Searching a new firmware release" ;;
        _ <- checkAvailableVersion (tk_doc tk) ;;
        ret tt
    else ret tt
  else ret tt.

(** ** A small model of ArduinoJson's [serializeJson] *)

Module Json.

Inductive Value :=
| Str (s : string)
| Num (n : Z).

Definition Document := list (string * Value).

Definition escape_char (c : ascii) : string :=
  let n := nat_of_ascii c in
  if Nat.eqb n 34 then "\" ++ dq
  else if Nat.eqb n 92 then "\\"
  else if Nat.eqb n 8 then "\b"
  else if Nat.eqb n 12 then "\f"
  else if Nat.eqb n 10 then "\n"
  else if Nat.eqb n 13 then "\r"
  else if Nat.eqb n 9 then "\t"
  else String c EmptyString.

Fixpoint escape (s : string) : string :=
  match s with
  | EmptyString => EmptyString
  | String c r => escape_char c ++ escape r
  end.

Definition quoted (s : string) : string := dq ++ escape s ++ dq.

Definition serializeValue (v : Value) : string :=
  match v with
  | Str s => quoted s
  | Num n => ofZ n
  end.

Fixpoint serializeMembers (d : Document) : string :=
  match d with
  | [] => EmptyString
  | [(k, v)] => quoted k ++ ":" ++ serializeValue v
  | (k, v) :: rest => quoted k ++ ":" ++ serializeValue v ++ "," ++ serializeMembers rest
  end.

Definition serializeJson (d : Document) : string :=
  "{" ++ serializeMembers d ++ "}".

(** The member stored under [key] (the first one, as ArduinoJson reads). *)
Fixpoint member (key : string) (d : Document) : option Value :=
  match d with
  | [] => None
  | (k, v) :: rest => if (k =? key)%string then Some v else member key rest
  end.

(** The literal [{"message":"..."}] bodies of the handlers. *)
Definition message (msg : string) : string :=
  "{" ++ dq ++ "message" ++ dq ++ ":" ++ dq ++ msg ++ dq ++ "}".

End Json.

(** ** [setVersionCheckInterval] *)

(** What the preferences store answers. *)
Record Nvs := mkNvs {
  nvs_begin_ok : bool;   (* preferences.begin(NVS, true) *)
  nvs_put : Z            (* bytes stored by the put call, 0 on failure *)
}.

(** [minutes * 60 * 1000] on a [uint32_t]: both products are taken in
    32-bit unsigned arithmetic before the result is widened. *)
Definition minutes_to_millis (minutes : Z) : Z :=
  wrap_u32 (wrap_u32 (minutes * 60) * 1000).

(** [void OTAWEBUPDATER::setVersionCheckInterval(uint32_t minutes)]
    (lines 63-73).  The parameter is a [uint32_t]: the argument is
    converted on the call. *)
Definition setVersionCheckInterval (nvs : Nvs) (arg : Z) : M unit :=
  let minutes := wrap_u32 arg in
  (if nvs_begin_ok nvs then
     emit (EvNvsPut "VersChkIntvl" (minutes_to_millis minutes)) ;;
     (if negb (nvs_put nvs =? 0) then
        logMessage ("[OTA] Updated VersionCheckInterval in NVS to "
                    ++ ofZ minutes ++ " minutes" ++ nl)
      else logMessage ("[OTA] Failed to update VersionCheckInterval in NVS" ++ nl))
   else ret tt) ;;
  modify (with_intervalVersionCheckMillis (minutes_to_millis minutes)).

(** ** The web handlers of [attachWebServer] *)

(** The document built by the GET [/config] handler (lines 159-167).
    The capacity of the [DynamicJsonDocument] is not modelled. *)
Definition configDocument (s : OTA) : Json.Document :=
  [ ("baseUrl", Json.Str (baseUrl s));
    ("otaPassword", Json.Str EmptyString);
    ("intervalVersionCheck", Json.Num (intervalVersionCheckMillis s / 60 / 1000)) ].

(** GET [apiPrefix + "/config"] *)
Definition configGetHandler : M unit :=
  s <- get ;;
  let output := Json.serializeJson (configDocument s) in
  emit (EvSend 200 output).

(** One invocation of the upload callback: the request, the chunk, and what
    the flasher answers. *)
Record UploadChunk := mkUploadChunk {
  up_credentials : option (string * string);  (* user and password sent *)
  up_filename : string;
  up_index : Z;
  up_len : Z;
  up_final : bool;
  up_begin_ok : bool;     (* Update.begin(...) *)
  up_written : Z;         (* Update.write(data, len) *)
  up_end_ok : bool;       (* Update.end(true) *)
  up_error : string       (* Update.errorString() *)
}.

(** [request->authenticate(user, password)] *)
Definition authenticate (c : UploadChunk) (user password : string) : bool :=
  match up_credentials c with
  | Some (u, p) => (u =? user)%string && (p =? password)%string
  | None => false
  end.

(** POST [apiPrefix + "/upload"], the upload callback (lines 312-364) *)
Definition uploadHandler (c : UploadChunk) : M unit :=
  s <- get ;;
  if negb (length (otaPassword s) =? 0)
     && negb (authenticate c "ota" (otaPassword s)) then
    logMessage "[OTA] Incorrect OTA request: Invalid password provided!" ;;
    emit (EvSend 401 (Json.message "Invalid OTA password provided!"))
  else
    (if up_index c =? 0 then
       modify (with_otaIsRunning true) ;;
       logMessage ("[OTA] Begin firmware update with filename: " ++ up_filename c) ;;
       emit (EvUpdateBegin (filetype_of (up_filename c))) ;;
       if negb (up_begin_ok c) then
         logMessage ("[OTA] Error: " ++ up_error c) ;;
         emit (EvSend 500 (Json.message "Unable to begin firmware update!")) ;;
         modify (with_otaIsRunning false)
       else ret tt
     else ret tt) ;;
    emit (EvUpdateWrite (up_len c)) ;;
    (if negb (up_written c =? up_len c) then
       logMessage ("[OTA] Error: " ++ up_error c) ;;
       emit (EvSend 500 (Json.message "Unable to write firmware update data!")) ;;
       modify (with_otaIsRunning false)
     else ret tt) ;;
    if up_final c then
      emit EvUpdateEnd ;;
      if negb (up_end_ok c) then
        emit (EvSend 500 (Json.serializeJson
                            [("message", Json.Str "Update error");
                             ("error", Json.Str (up_error c))])) ;;
        logMessage "[OTA] Error when calling calling Update.end()." ;;
        logMessage ("[OTA] Error: " ++ up_error c) ;;
        modify (with_otaIsRunning false)
      else
        logMessage "[OTA] Firmware update successful." ;;
        emit (EvSend 200 (Json.message "Please wait while the device reboots!")) ;;
        emit (EvDelay 250) ;;
        logMessage "[OTA] Update complete, rebooting now!" ;;
        restart
    else ret tt.

(** ** Sequences of entry points *)

(** The entry points that start or continue a transfer, in the order in
    which the device runs them. *)
Inductive Op :=
| OpUpload (c : UploadChunk)                        (* the upload callback *)
| OpUpdateFile (d : Download) (url file : string)   (* updateFile(url, file) *)
| OpExecuteUpdate (d_fs d_app : Download)           (* executeUpdate() *)
| OpLoop (tk : Tick).                               (* loop() *)

Definition run_op (o : Op) : M unit :=
  match o with
  | OpUpload c => uploadHandler c
  | OpUpdateFile d url file => _ <- updateFile d url file ;; ret tt
  | OpExecuteUpdate d_fs d_app => executeUpdate d_fs d_app
  | OpLoop tk => loop tk
  end.

Fixpoint run_ops (ops : list Op) : M unit :=
  match ops with
  | [] => ret tt
  | o :: rest => run_op o ;; run_ops rest
  end.

(** ** Observations on traces *)

Definition is_flash (e : Event) : bool :=
  match e with
  | EvUpdateBegin _ | EvUpdateWrite _ | EvUpdateEnd => true
  | _ => false
  end.

(** The calls made to the flasher, in order. *)
Definition flash_events (t : list Event) : list Event := filter is_flash t.

(** Total number of bytes handed to [Update.write]. *)
Fixpoint bytes_written (t : list Event) : Z :=
  match t with
  | [] => 0
  | EvUpdateWrite n :: r => n + bytes_written r
  | _ :: r => bytes_written r
  end.

Fixpoint count_restarts (t : list Event) : nat :=
  match t with
  | [] => 0
  | EvRestart :: r => S (count_restarts r)
  | _ :: r => count_restarts r
  end.

Fixpoint count_update_end (t : list Event) : nat :=
  match t with
  | [] => 0
  | EvUpdateEnd :: r => S (count_update_end r)
  | _ :: r => count_update_end r
  end.

(** The partitions for which [Update.begin] was called, in order. *)
Fixpoint begun (t : list Event) : list UpdateCmd :=
  match t with
  | [] => []
  | EvUpdateBegin c :: r => c :: begun r
  | _ :: r => begun r
  end.

(** The URLs requested, in order. *)
Fixpoint requested (t : list Event) : list string :=
  match t with
  | [] => []
  | EvHttpBegin u :: r => u :: requested r
  | _ :: r => requested r
  end.

(** Transfers open along a trace, as the callers of the flasher see it:
    [Update.begin] opens one, [Update.end] closes one.  [open_max n t] is
    the largest number open at any instant of [t], starting with [n]. *)
Fixpoint open_max (n : nat) (t : list Event) : nat :=
  match t with
  | [] => n
  | EvUpdateBegin _ :: r => Nat.max n (open_max (S n) r)
  | EvUpdateEnd :: r => Nat.max n (open_max (Nat.pred n) r)
  | _ :: r => open_max n r
  end.

(** ** The two transfers of [executeUpdate] *)

Definition fs_name : string := "littlefs.bin".
Definition app_name : string := "firmware.bin".
Definition failed_msg : string := "[OTA] Failed to update firmware".

(** The two calls of [updateFile] made by [executeUpdate], in the states in
    which it makes them. *)
Definition fs_run (d_fs : Download) (s : OTA) : Outcome bool * list Event :=
  updateFile d_fs (baseUrl s) fs_name (with_otaIsRunning true s).

Definition app_run (d_app : Download) (s : OTA) : Outcome bool * list Event :=
  updateFile d_app (baseUrl s) app_name (with_otaIsRunning false s).

(** ** Runs that differ in the running flag only *)

(** Two objects that agree on every member except [otaIsRunning]. *)
Definition agree_up_to_flag (s1 s2 : OTA) : Prop :=
  with_otaIsRunning false s1 = with_otaIsRunning false s2.

(** Two runs with the same trace, the same way of ending, the same
    returned value, and final objects that agree except for the flag. *)
Definition same_run {A} (r1 r2 : Outcome A * list Event) : Prop :=
  trace r1 = trace r2 /\
  match outcome r1, outcome r2 with
  | Returned a1 s1, Returned a2 s2 => a1 = a2 /\ agree_up_to_flag s1 s2
  | Restarted, Restarted => True
  | _, _ => False
  end.

(** The first chunk of an upload of four bytes, not the last one. *)
Definition sample_first_chunk : UploadChunk :=
  mkUploadChunk None "firmware.bin" 0 4 false true 4 true EmptyString.

(** ** Metadata members that carry no value *)

(** A member that is absent, null, the empty string or the string "null". *)
Definition missing_or_null (m : JsonMember) : Prop :=
  m = JAbsent \/ m = JNull \/ m = JString EmptyString \/ m = JString "null".

(** ** Sample inputs *)

Definition sample_url : string := "http://ota.test".

(** A device with a base URL, running the firmware of 2024-01-01. *)
Definition sample_device : OTA :=
  setFirmware "2024-01-01" "1.0" (with_baseUrl sample_url initialOTA).

(** Ten bytes announced, delivered as four bytes, a pause, six bytes. *)
Definition sample_download : Download :=
  mkDownload true 200 10 [mkPoll true 4 4; mkPoll true 0 0; mkPoll true 6 6].

(** The same stream without a Content-Length header. *)
Definition sample_download_unsized : Download :=
  mkDownload true 200 (-1) [mkPoll true 4 4; mkPoll true 0 0; mkPoll true 6 6].

(** Ten bytes announced, the connection closes after four. *)
Definition sample_download_short : Download :=
  mkDownload true 200 10 [mkPoll true 4 4; mkPoll false 0 0].

(** The staging buffer cannot be allocated. *)
Definition sample_download_no_memory : Download :=
  mkDownload false 200 10 [mkPoll true 10 10].

(** * Further entry points *)

(** ** More observations on traces *)

Fixpoint count_alloc (t : list Event) : nat :=
  match t with
  | [] => 0
  | EvAlloc :: r => S (count_alloc r)
  | _ :: r => count_alloc r
  end.

Fixpoint count_free (t : list Event) : nat :=
  match t with
  | [] => 0
  | EvFree :: r => S (count_free r)
  | _ :: r => count_free r
  end.

(** A call of [Update.write] whose length fits the staging buffer. *)
Definition write_fits (e : Event) : Prop :=
  match e with
  | EvUpdateWrite n => 0 <= n <= bufferAllocationLen
  | _ => True
  end.

(** The responses sent, in order. *)
Fixpoint sent (t : list Event) : list Z :=
  match t with
  | [] => []
  | EvSend code _ :: r => code :: sent r
  | _ :: r => sent r
  end.

(** The lines logged, in order. *)
Fixpoint logged (t : list Event) : list string :=
  match t with
  | [] => []
  | EvLog m :: r => m :: logged r
  | _ :: r => logged r
  end.

(** What one pass of the read loop takes from the stream. *)
Definition read_of (p : Poll) : Z :=
  let size := wrap_u32 (available p) in
  if size =? 0 then 0
  else readBytes p (if wrap_u32 bufferAllocationLen <? size
                    then bufferAllocationLen else size).

Fixpoint reads (ps : list Poll) : Z :=
  match ps with
  | [] => 0
  | p :: r => read_of p + reads r
  end.

(** [pat] occurs in [s]. *)
Definition contains (s pat : string) : Prop :=
  exists pre post, s = pre ++ pat ++ post.

(** ** [setBaseUrl] and [setOtaPassword] *)

Definition with_networkReady (b : bool) (s : OTA) : OTA :=
  mkOTA (otaIsRunning s) (newReleaseAvailable s) (baseUrl s)
    (lastVersionCheckMillis s) (intervalVersionCheckMillis s)
    (currentFwDate s) (currentFwRelease s) b (initialCheck s) (otaPassword s).

(** [void OTAWEBUPDATER::setBaseUrl(String newUrl)] (lines 51-61).  The
    call [preferences.putString] is answered by [nvs_put]; the trace shows
    the log line that follows it. *)
Definition setBaseUrl (nvs : Nvs) (newUrl : string) : M unit :=
  (if nvs_begin_ok nvs then
     if negb (nvs_put nvs =? 0) then
       logMessage ("[OTA] Updated baseUrl in NVS to " ++ newUrl ++ nl)
     else logMessage ("[OTA] Failed to update baseUrl in NVS" ++ nl)
   else ret tt) ;;
  modify (with_baseUrl newUrl).

(** [void OTAWEBUPDATER::setOtaPassword(String newPass)] (lines 75-85) *)
Definition setOtaPassword (nvs : Nvs) (newPass : string) : M unit :=
  (if nvs_begin_ok nvs then
     if negb (nvs_put nvs =? 0) then
       logMessage ("[OTA] Updated OtaPassword in NVS to " ++ newPass ++ nl)
     else logMessage ("[OTA] Failed to update OtaPassword in NVS" ++ nl)
   else ret tt) ;;
  modify (with_otaPassword newPass).

(** ** The POST [/config] handler *)

(** The body of a POST [/config] request as the handler reads it: a member
    is [Some] when [is<String>()] (resp. [is<int>()]) holds for it, and
    then carries what [as<String>()] (resp. [as<int>()]) returns.  The
    three [Nvs] are the answers of the preferences store to the three
    setters. *)
Record ConfigPost := mkConfigPost {
  cp_baseUrl : option string;
  cp_otaPassword : option string;
  cp_interval : option Z;
  cp_nvs_url : Nvs;
  cp_nvs_password : Nvs;
  cp_nvs_interval : Nvs
}.

(** One of the three [if] blocks of the handler: when the member has the
    awaited type, call the setter, log the new value as the object now
    holds it, and count the change. *)
Definition config_member {V} (member : option V) (set : V -> M unit)
    (msg : OTA -> string) (changes : Z) : M Z :=
  match member with
  | Some v =>
      set v ;;
      s <- get ;;
      logMessage (msg s) ;;
      ret (changes + 1)
  | None => ret changes
  end.

(** POST [apiPrefix + "/config"], the body callback (lines 169-197) *)
Definition configPostHandler (b : ConfigPost) : M unit :=
  let changes := 0 in
  changes <- config_member (cp_baseUrl b) (setBaseUrl (cp_nvs_url b))
               (fun s => "[OTA][CONFIG] baseUrl changed to " ++ baseUrl s)
               changes ;;
  changes <- config_member (cp_otaPassword b) (setOtaPassword (cp_nvs_password b))
               (fun s => "[OTA][CONFIG] otaPassword changed to " ++ otaPassword s)
               changes ;;
  changes <- config_member (cp_interval b)
               (setVersionCheckInterval (cp_nvs_interval b))
               (fun s => "[OTA][CONFIG] intervalVersionCheck changed to "
                         ++ ofZ (intervalVersionCheckMillis s / 60 / 1000)
                         ++ " minutes")
               changes ;;
  if changes =? 0 then emit (EvSend 422 (Json.message "Invalid data"))
  else emit (EvSend 200 (Json.message "Config updated")).

(** The object after a POST [/config]: the members present, applied in the
    order base URL, password, interval. *)
Definition configured (b : ConfigPost) (s : OTA) : OTA :=
  let s1 := match cp_baseUrl b with Some u => with_baseUrl u s | None => s end in
  let s2 := match cp_otaPassword b with
            | Some p => with_otaPassword p s1 | None => s1 end in
  match cp_interval b with
  | Some m => with_intervalVersionCheckMillis (wrap_u32 (m * 60 * 1000)) s2
  | None => s2
  end.

(** ** The constructor and the WiFi events *)

(** What the constructor finds: whether the preferences open, what they
    hold under the three keys, the running partition, and whether WiFi is
    connected. *)
Record Boot := mkBoot {
  bt_nvs_ok : bool;
  bt_baseUrl : option string;
  bt_interval : option Z;
  bt_password : option string;
  bt_label : string;
  bt_subtype : Z;
  bt_connected : bool
}.

(** [preferences.getString(key, dflt)] and [preferences.getULong64]: the
    stored value, or the default when the key is absent. *)
Definition stored_or {A} (stored : option A) (dflt : A) : A :=
  match stored with Some v => v | None => dflt end.

(** [OTAWEBUPDATER::OTAWEBUPDATER(const char * ns)] (lines 99-142), up to
    the registration of the event handlers. *)
Definition OTAWEBUPDATER_ctor (bt : Boot) : M unit :=
  (if bt_nvs_ok bt then
     s <- get ;;
     modify (with_baseUrl (stored_or (bt_baseUrl bt) (baseUrl s))) ;;
     s <- get ;;
     logMessage ("[OTA] Loaded baseUrl from NVS: " ++ baseUrl s) ;;
     modify (with_intervalVersionCheckMillis
               (stored_or (bt_interval bt) (intervalVersionCheckMillis s))) ;;
     s <- get ;;
     logMessage ("[OTA] Loaded VersionCheckInterval from NVS: "
                 ++ ofZ (intervalVersionCheckMillis s / 60 / 1000) ++ " minutes") ;;
     modify (with_otaPassword (stored_or (bt_password bt) (otaPassword s))) ;;
     s <- get ;;
     logMessage ("[OTA] Loaded OtaPassword from NVS: " ++ otaPassword s)
   else ret tt) ;;
  logMessage ("[OTA] Running partition: " ++ bt_label bt
              ++ " (" ++ ofZ (bt_subtype bt) ++ ")") ;;
  logMessage "[OTA] Created, registering WiFi events" ;;
  if bt_connected bt then modify (with_networkReady true) else ret tt.

(** The events the constructor registers handlers for, and any other. *)
Inductive WiFiEvent :=
| WIFI_STA_GOT_IP
| WIFI_STA_GOT_IP6
| ETH_GOT_IP
| ETH_GOT_IP6
| WIFI_STA_DISCONNECTED
| WIFI_AP_STADISCONNECTED
| ETH_DISCONNECTED
| OTHER_EVENT.

Definition WiFiEvent_eqb (a b : WiFiEvent) : bool :=
  match a, b with
  | WIFI_STA_GOT_IP, WIFI_STA_GOT_IP
  | WIFI_STA_GOT_IP6, WIFI_STA_GOT_IP6
  | ETH_GOT_IP, ETH_GOT_IP
  | ETH_GOT_IP6, ETH_GOT_IP6
  | WIFI_STA_DISCONNECTED, WIFI_STA_DISCONNECTED
  | WIFI_AP_STADISCONNECTED, WIFI_AP_STADISCONNECTED
  | ETH_DISCONNECTED, ETH_DISCONNECTED
  | OTHER_EVENT, OTHER_EVENT => true
  | _, _ => false
  end.

(** The two lambdas of the constructor. *)
Inductive WiFiHandler := eventHandlerUp | eventHandlerDown.

Definition run_handler (h : WiFiHandler) : M unit :=
  match h with
  | eventHandlerUp =>
      logMessage "[OTA][WIFI] onEvent() Network connected" ;;
      modify (with_networkReady true)
  | eventHandlerDown =>
      logMessage "[OTA][WIFI] onEvent() Network disconnected" ;;
      modify (with_networkReady false)
  end.

(** The seven calls of [WiFi.onEvent] (lines 130-141), in order: each
    passes [eventHandlerUp]. *)
Definition registrations : list (WiFiHandler * WiFiEvent) :=
  [ (eventHandlerUp, WIFI_STA_GOT_IP);
    (eventHandlerUp, WIFI_STA_GOT_IP6);
    (eventHandlerUp, ETH_GOT_IP);
    (eventHandlerUp, ETH_GOT_IP6);
    (eventHandlerUp, WIFI_STA_DISCONNECTED);
    (eventHandlerUp, WIFI_AP_STADISCONNECTED);
    (eventHandlerUp, ETH_DISCONNECTED) ].

(** An event reaches every handler registered for it, in the order of
    registration. *)
Fixpoint dispatch (regs : list (WiFiHandler * WiFiEvent)) (ev : WiFiEvent)
  : M unit :=
  match regs with
  | [] => ret tt
  | (h, e) :: rest =>
      (if WiFiEvent_eqb e ev then run_handler h else ret tt) ;;
      dispatch rest ev
  end.

Definition onWiFiEvent (ev : WiFiEvent) : M unit := dispatch registrations ev.

Fixpoint onWiFiEvents (evs : list WiFiEvent) : M unit :=
  match evs with
  | [] => ret tt
  | ev :: rest => onWiFiEvent ev ;; onWiFiEvents rest
  end.

(** ** Uploads *)

(** The request passes the password test of the upload callback. *)
Definition authorised (s : OTA) (c : UploadChunk) : bool :=
  (length (otaPassword s) =? 0) || authenticate c "ota" (otaPassword s).

Fixpoint upload_bytes (cs : list UploadChunk) : Z :=
  match cs with
  | [] => 0
  | c :: r => up_len c + upload_bytes r
  end.

(** The partitions opened by the chunks that carry index 0. *)
Fixpoint upload_begins (cs : list UploadChunk) : list UpdateCmd :=
  match cs with
  | [] => []
  | c :: r => if up_index c =? 0
              then filetype_of (up_filename c) :: upload_begins r
              else upload_begins r
  end.

(** ** What the entry points leave alone *)

(** [s'] holds the configuration of [s], and a release flagged in [s] is
    still flagged in [s']. *)
Definition config_kept (s s' : OTA) : Prop :=
  baseUrl s' = baseUrl s /\
  otaPassword s' = otaPassword s /\
  intervalVersionCheckMillis s' = intervalVersionCheckMillis s /\
  currentFwDate s' = currentFwDate s /\
  currentFwRelease s' = currentFwRelease s /\
  networkReady s' = networkReady s /\
  (newReleaseAvailable s = true -> newReleaseAvailable s' = true).

(** Every run of [m] that returns leaves the configuration alone. *)
Definition keeps_config {A} (m : M A) : Prop :=
  forall s a s', outcome (m s) = Returned a s' -> config_kept s s'.

(** ** The schedule of [loop] *)

(** The tick reaches the version check: the network is ready and either
    no check has been made yet or the interval has elapsed. *)
Definition due (tk : Tick) (s : OTA) : bool :=
  networkReady s
  && (negb (initialCheck s)
      || negb (wrap_u64 (millis1 tk - lastVersionCheckMillis s)
               <? intervalVersionCheckMillis s)).

(** The object as [loop] leaves it just before the version check. *)
Definition checked_at (tk : Tick) (s : OTA) : OTA :=
  if initialCheck s then with_lastVersionCheckMillis (millis2 tk) s
  else with_initialCheck true s.

Definition metadata_url (s : OTA) : string :=
  baseUrl s ++ "/current-version.json".

(** The event has a handler registered for it. *)
Definition registered (ev : WiFiEvent) : bool :=
  existsb (fun r => WiFiEvent_eqb (snd r) ev) registrations.

(** * The download with the answers of the flasher and a connection that
      need not close *)

(** The model of [updateFile] above takes the answers of the network as a
    finite script and leaves the answers of the flasher out.  The one below
    makes both explicit: the flasher answers every call, and the network
    answers pass after pass for as long as the loop asks, so that a
    connection that stays open for ever can be written down.  The number of
    passes looked at is a parameter; the answer [None] says that the loop
    has not ended within them.  The two models are proved to agree on
    every download that ends. *)

(** What the flasher answers. *)
Record Flasher := mkFlasher {
  fl_begin_ok : bool;      (* Update.begin(UPDATE_SIZE_UNKNOWN, cmd) *)
  fl_written : Z -> Z;     (* Update.write(buffer, n), the bytes taken *)
  fl_end_ok : bool         (* Update.end(true) *)
}.

Definition Update_begin (fl : Flasher) (cmd : UpdateCmd) : M bool :=
  emit (EvUpdateBegin cmd) ;; ret (fl_begin_ok fl).

Definition Update_write (fl : Flasher) (n : Z) : M Z :=
  emit (EvUpdateWrite n) ;; ret (fl_written fl n).

Definition Update_end (fl : Flasher) : M bool :=
  emit EvUpdateEnd ;; ret (fl_end_ok fl).

(** What the outside world answers during one call of [updateFile]:
    [tf_stream k] is the answer to pass [k] of the read loop. *)
Record Transfer := mkTransfer {
  tf_alloc_ok : bool;
  tf_http_code : Z;
  tf_content_length : Z;
  tf_stream : nat -> Poll;
  tf_flasher : Flasher
}.

(** The [while] loop of [updateFile] (lines 530-554), looked at for [n]
    passes.  The values returned by [Update.write] and [Update.end] are
    bound and, as in the source, not used. *)
Fixpoint updateFile_loop_passes (n : nat) (fl : Flasher) (st : nat -> Poll)
    (totalLength len currentLength : Z) : M (option bool) :=
  match n with
  | O => ret None
  | S n' =>
      let p := st O in
      if connected p && ((0 <? len) || (len =? -1)) then
        let size := wrap_u32 (available p) in
        if negb (size =? 0) then
          let readBufLen :=
            readBytes p (if wrap_u32 bufferAllocationLen <? size
                         then bufferAllocationLen else size) in
          let len' := if 0 <? len then len - readBufLen else len in
          _ <- Update_write fl readBufLen ;;
          logMessage ("[OTA] Status: " ++ ofZ currentLength) ;;
          let currentLength' := wrap_i32 (currentLength + readBufLen) in
          if negb (currentLength' =? totalLength) then
            updateFile_loop_passes n' fl (fun k => st (S k))
              totalLength len' currentLength'
          else
            _ <- Update_end fl ;;
            emit EvHttpEnd ;;
            logMessage nl ;;
            logMessage ("[OTA] Upgrade successfully executed. Wrote bytes: "
                        ++ ofZ currentLength') ;;
            modify (with_otaIsRunning false) ;;
            emit EvFree ;;
            ret (Some true)
        else
          emit (EvDelay 1) ;;
          updateFile_loop_passes n' fl (fun k => st (S k))
            totalLength len currentLength
      else ret (Some false)
  end.

(** [updateFile] (lines 484-560) with the loop looked at for [n] passes;
    [None] when the loop has not ended within them. *)
Definition updateFile_passes (n : nat) (tf : Transfer) (baseUrl filename : string)
  : M (option bool) :=
  if isEmpty baseUrl then
    logMessage "[OTA] No baseUrl configured" ;;
    ret (Some false)
  else
    modify (with_otaIsRunning true) ;;
    let filetype := filetype_of filename in
    let firmwareUrl := baseUrl ++ "/" ++ filename in
    if negb (tf_alloc_ok tf) then
      emit EvAllocFailed ;;
      logMessage ("[OTA] Unable to request memory with malloc("
                  ++ ofZ (bufferAllocationLen + 1) ++ ")") ;;
      modify (with_otaIsRunning false) ;;
      ret (Some false)
    else
      emit EvAlloc ;;
      emit (EvHttpBegin firmwareUrl) ;;
      logMessage ("[OTA] Firmware type: "
                  ++ match filetype with U_SPIFFS => "spiffs" | U_FLASH => "flash" end) ;;
      logMessage ("[OTA] Firmware url:  " ++ firmwareUrl) ;;
      emit EvHttpGet ;;
      done <- (if tf_http_code tf =? 200 then
                 let totalLength := tf_content_length tf in
                 _ <- Update_begin (tf_flasher tf) filetype ;;
                 logMessage ("[OTA] Firmware size: " ++ ofZ totalLength) ;;
                 logMessage "[OTA] Begin firmware upgrade..." ;;
                 updateFile_loop_passes n (tf_flasher tf) (tf_stream tf)
                   totalLength totalLength 0
               else ret (Some false)) ;;
      match done with
      | None => ret None
      | Some true => ret (Some true)
      | Some false =>
          modify (with_otaIsRunning false) ;;
          emit EvFree ;;
          ret (Some false)
      end.

(** [executeUpdate] (lines 565-578) over [updateFile_passes]; [None] when
    one of the two downloads has not ended. *)
Definition executeUpdate_passes (n : nat) (tf_fs tf_app : Transfer)
  : M (option unit) :=
  s <- get ;;
  if isEmpty (baseUrl s) then
    logMessage "[OTA] No baseUrl configured" ;;
    ret (Some tt)
  else
    modify (with_otaIsRunning true) ;;
    ok_fs <- updateFile_passes n tf_fs (baseUrl s) "littlefs.bin" ;;
    ok <- (match ok_fs with
           | Some true => updateFile_passes n tf_app (baseUrl s) "firmware.bin"
           | other => ret other
           end) ;;
    match ok with
    | None => ret None
    | Some true => restart ;; ret (Some tt)
    | Some false =>
        modify (with_otaIsRunning false) ;;
        logMessage "[OTA] Failed to update firmware" ;;
        ret (Some tt)
    end.

(** [loop] (lines 419-432) over [executeUpdate_passes]; [None] when the
    update it started has not ended. *)
Definition loop_passes (n : nat) (tk : Tick) (tf_fs tf_app : Transfer)
  : M (option unit) :=
  s0 <- get ;;
  upd <- (if newReleaseAvailable s0 then executeUpdate_passes n tf_fs tf_app
          else ret (Some tt)) ;;
  match upd with
  | None => ret None
  | Some _ =>
      s <- get ;;
      (if networkReady s then
         due <- (if initialCheck s then
                   if wrap_u64 (millis1 tk - lastVersionCheckMillis s)
                      <? intervalVersionCheckMillis s
                   then ret false
                   else modify (with_lastVersionCheckMillis (millis2 tk)) ;; ret true
                 else modify (with_initialCheck true) ;; ret true) ;;
         if (due : bool) then
           if isEmpty (baseUrl s) then ret tt
           else
             logMessage "[OTA] Searching a new firmware release" ;;
             _ <- checkAvailableVersion (tk_doc tk) ;;
             ret tt
         else ret tt
       else ret tt) ;;
      ret (Some tt)
  end.



(** ** The two models side by side *)

(** A closed connection. *)
Definition closed_poll : Poll := mkPoll false 0 0.

(** The stream that answers as the script and is closed afterwards. *)
Definition stream_of (ps : list Poll) : nat -> Poll :=
  fun k => nth k ps closed_poll.


Definition transfer_of (fl : Flasher) (d : Download) : Transfer :=
  mkTransfer (alloc_ok d) (http_code d) (content_length d)
    (stream_of (polls d)) fl.


Definition with_flasher (fl : Flasher) (tf : Transfer) : Transfer :=
  mkTransfer (tf_alloc_ok tf) (tf_http_code tf) (tf_content_length tf)
    (tf_stream tf) fl.

(** A run that ended, seen as a run of the model with passes. *)
Definition ended {A} (r : Outcome A * list Event) : Outcome (option A) * list Event :=
  (match fst r with
   | Returned a s => Returned (Some a) s
   | Restarted => Restarted
   end, snd r).

(** ** Sample transfers *)

(** A flasher that refuses everything. *)
Definition refusing_flasher : Flasher := mkFlasher false (fun _ => 0) false.



(** The sample download, complete, handed to a flasher that refuses it. *)
Definition refused_transfer : Transfer :=
  transfer_of refusing_flasher sample_download.


(** * Properties *)

(** ** The model on sample inputs *)

Example filetype_of_littlefs : filetype_of "littlefs.bin" = U_SPIFFS.
Proof. reflexivity. Qed.

Example filetype_of_firmware : filetype_of "firmware.bin" = U_FLASH.
Proof. reflexivity. Qed.

Example indexOf_inside : indexOf "my-littlefs.bin" "littlefs" = 3.
Proof. reflexivity. Qed.

Example indexOf_nowhere : indexOf "firmware.bin" "spiffs" = -1.
Proof. reflexivity. Qed.

(** Ten bytes announced and ten bytes delivered: the update completes. *)
Example sample_download_completes :
  updateFile sample_download sample_url "firmware.bin" sample_device
  = (Returned true sample_device,
     [EvAlloc; EvHttpBegin "http://ota.test/firmware.bin";
      EvLog "[OTA] Firmware type: flash";
      EvLog "[OTA] Firmware url:  http://ota.test/firmware.bin";
      EvHttpGet; EvUpdateBegin U_FLASH; EvLog "[OTA] Firmware size: 10";
      EvLog "[OTA] Begin firmware upgrade...";
      EvUpdateWrite 4; EvLog "[OTA] Status: 0"; EvDelay 1;
      EvUpdateWrite 6; EvLog "[OTA] Status: 4"; EvUpdateEnd; EvHttpEnd;
      EvLog nl;
      EvLog "[OTA] Upgrade successfully executed. Wrote bytes: 10"; EvFree]).
Proof. vm_compute. reflexivity. Qed.

(** The same bytes without a declared length: the counter never equals -1. *)
Example sample_download_unsized_fails :
  result (updateFile sample_download_unsized sample_url "firmware.bin" sample_device)
  = Some false.
Proof. vm_compute. reflexivity. Qed.

(** One byte more than announced in a single read: [len] drops to -1 and
    the loop goes on until the connection closes. *)
Example surplus_byte_fails :
  updateFile (mkDownload true 200 10 [mkPoll true 11 11; mkPoll true 0 0])
    sample_url "firmware.bin" sample_device
  = (Returned false sample_device,
     [EvAlloc; EvHttpBegin "http://ota.test/firmware.bin";
      EvLog "[OTA] Firmware type: flash";
      EvLog "[OTA] Firmware url:  http://ota.test/firmware.bin";
      EvHttpGet; EvUpdateBegin U_FLASH; EvLog "[OTA] Firmware size: 10";
      EvLog "[OTA] Begin firmware upgrade...";
      EvUpdateWrite 11; EvLog "[OTA] Status: 0"; EvDelay 1; EvFree]).
Proof. vm_compute. reflexivity. Qed.

(** 71583 minutes do not fit 32 bits once turned into milliseconds. *)
Example interval_wraps :
  final (setVersionCheckInterval (mkNvs true 8) 71583 sample_device)
  = Some (with_intervalVersionCheckMillis 12704 sample_device).
Proof. vm_compute. reflexivity. Qed.

(** A tick with a new release pending runs the update before anything
    else; here both images arrive and the device restarts. *)
Example loop_with_pending_release_restarts :
  outcome (loop (mkTick 5000 5000 (mkMetadata JAbsent JAbsent)
                   sample_download sample_download)
             (with_newReleaseAvailable true sample_device))
  = Restarted.
Proof. vm_compute. reflexivity. Qed.

(** ** Running computations *)

Lemma bind_run {A B} (m : M A) (k : A -> M B) (s : OTA) :
  bind m k s =
  match outcome (m s) with
  | Returned a s' => (outcome (k a s'), (trace (m s) ++ trace (k a s'))%list)
  | Restarted => (Restarted, trace (m s))
  end.
Proof.
  unfold bind, outcome, trace.
  destruct (m s) as [[a s'|] t]; simpl; [|reflexivity].
  destruct (k a s'); reflexivity.
Qed.

Lemma bind_get {A} (k : OTA -> M A) (s : OTA) : bind get k s = k s s.
Proof. unfold bind, get. destruct (k s s); reflexivity. Qed.

Lemma bind_emit {A} (e : Event) (k : unit -> M A) (s : OTA) :
  bind (emit e) k s = (outcome (k tt s), e :: trace (k tt s)).
Proof. unfold bind, emit, outcome, trace. destruct (k tt s); reflexivity. Qed.

Lemma bind_modify {A} (f : OTA -> OTA) (k : unit -> M A) (s : OTA) :
  bind (modify f) k s = k tt (f s).
Proof. unfold bind, modify. destruct (k tt (f s)); reflexivity. Qed.

Lemma bind_ret {A B} (a : A) (k : A -> M B) (s : OTA) : bind (ret a) k s = k a s.
Proof. unfold bind, ret. destruct (k a s); reflexivity. Qed.

Lemma bind_assoc {A B C} (m : M A) (k : A -> M B) (k' : B -> M C) (s : OTA) :
  bind (bind m k) k' s = bind m (fun a => bind (k a) k') s.
Proof.
  unfold bind. destruct (m s) as [[a s1|] t]; [|reflexivity].
  destruct (k a s1) as [[b s2|] t2]; [|reflexivity].
  destruct (k' b s2) as [r t3]. rewrite app_assoc. reflexivity.
Qed.

Lemma with_otaIsRunning_twice (a b : bool) (s : OTA) :
  with_otaIsRunning a (with_otaIsRunning b s) = with_otaIsRunning a s.
Proof. reflexivity. Qed.

Lemma with_otaIsRunning_get (b : bool) (s : OTA) :
  otaIsRunning (with_otaIsRunning b s) = b.
Proof. reflexivity. Qed.

Ltac step :=
  repeat (progress (unfold logMessage; cbn [outcome trace fst snd];
                    rewrite ?bind_get, ?bind_emit, ?bind_modify, ?bind_ret)).

(** Refute membership of an event in an explicit list. *)
Ltac not_in H :=
  repeat (destruct H as [H|H]; [discriminate|]); try (destruct H; fail).

(** ** Observations distribute over concatenation *)

Lemma bytes_written_app (t u : list Event) :
  bytes_written (t ++ u) = bytes_written t + bytes_written u.
Proof.
  induction t as [|e t IH]; simpl; [reflexivity|].
  destruct e; rewrite ?IH; lia.
Qed.

Lemma count_restarts_app (t u : list Event) :
  count_restarts (t ++ u) = (count_restarts t + count_restarts u)%nat.
Proof.
  induction t as [|e t IH]; simpl; [reflexivity|].
  destruct e; rewrite ?IH; reflexivity.
Qed.

Lemma count_update_end_app (t u : list Event) :
  count_update_end (t ++ u) = (count_update_end t + count_update_end u)%nat.
Proof.
  induction t as [|e t IH]; simpl; [reflexivity|].
  destruct e; rewrite ?IH; reflexivity.
Qed.

Lemma begun_app (t u : list Event) : begun (t ++ u) = (begun t ++ begun u)%list.
Proof.
  induction t as [|e t IH]; simpl; [reflexivity|].
  destruct e; rewrite ?IH; reflexivity.
Qed.

Lemma requested_app (t u : list Event) :
  requested (t ++ u) = (requested t ++ requested u)%list.
Proof.
  induction t as [|e t IH]; simpl; [reflexivity|].
  destruct e; rewrite ?IH; reflexivity.
Qed.

Lemma flash_events_app (t u : list Event) :
  flash_events (t ++ u) = (flash_events t ++ flash_events u)%list.
Proof. apply filter_app. Qed.

Lemma count_update_end_In (t : list Event) :
  In EvUpdateEnd t <-> (0 < count_update_end t)%nat.
Proof.
  induction t as [|e t IH]; simpl; [split; [tauto | lia]|].
  split.
  - intros [H | H]; [subst e; lia|].
    apply IH in H. destruct e; lia.
  - destruct e; try (intros H; right; apply IH; exact H).
    intros _. left. reflexivity.
Qed.

(** ** Machine arithmetic *)

Lemma wrap_i32_add_l (a b : Z) : wrap_i32 (wrap_i32 a + b) = wrap_i32 (a + b).
Proof.
  unfold wrap_i32.
  replace ((a + 2 ^ 31) mod 2 ^ 32 - 2 ^ 31 + b + 2 ^ 31)
    with ((a + 2 ^ 31) mod 2 ^ 32 + b) by lia.
  rewrite Zplus_mod_idemp_l.
  replace (a + 2 ^ 31 + b) with (a + b + 2 ^ 31) by lia.
  reflexivity.
Qed.

Lemma wrap_i32_small (z : Z) : 0 <= z <= INT_MAX -> wrap_i32 z = z.
Proof.
  unfold wrap_i32, INT_MAX. intros H.
  rewrite Z.mod_small; lia.
Qed.

Lemma readBytes_nonneg (p : Poll) (n : Z) : 0 <= n -> 0 <= readBytes p n.
Proof. unfold readBytes. lia. Qed.

Lemma readBytes_le (p : Poll) (n : Z) : readBytes p n <= n.
Proof. unfold readBytes. lia. Qed.

(** ** The read loop *)

Lemma chunk_size_nonneg (p : Poll) :
  0 <= (if wrap_u32 bufferAllocationLen <? wrap_u32 (available p)
        then bufferAllocationLen else wrap_u32 (available p)).
Proof.
  destruct (wrap_u32 bufferAllocationLen <? wrap_u32 (available p)).
  - unfold bufferAllocationLen. lia.
  - unfold wrap_u32. apply Z.mod_pos_bound. lia.
Qed.

(** The loop never touches the object except to clear the running flag on
    the completed path; its answer and its trace do not depend on the
    object at all.  The trace holds one [Update.end] exactly when the loop
    completes, and then the [int] counter, which is the number of bytes
    handed to [Update.write] so far, equals the declared length. *)
Lemma updateFile_loop_spec (ps : list Poll) (totalLength : Z) :
  forall len currentLength, exists (b : bool) (t : list Event),
    (forall s, updateFile_loop ps totalLength len currentLength s
               = (Returned b (if b then with_otaIsRunning false s else s), t)) /\
    count_update_end t = (if b then 1 else 0)%nat /\
    (b = true -> wrap_i32 (currentLength + bytes_written t) = totalLength) /\
    0 <= bytes_written t /\
    count_restarts t = 0%nat /\
    begun t = [] /\
    requested t = [] /\
    Forall (fun e => e <> EvAllocFailed) t.
Proof.
  induction ps as [|p rest IH]; intros len cl.
  - exists false, []. simpl.
    repeat split; try reflexivity; try lia; try discriminate. constructor.
  - cbn [updateFile_loop].
    destruct (connected p && ((0 <? len) || (len =? -1))).
    2:{ exists false, []. simpl.
        repeat split; try reflexivity; try lia; try discriminate. constructor. }
    destruct (negb (wrap_u32 (available p) =? 0)).
    + pose proof (readBytes_nonneg p _ (chunk_size_nonneg p)) as Hn.
      set (n := readBytes p _) in *.
      destruct (negb (wrap_i32 (cl + n) =? totalLength)) eqn:Hcmp.
      * destruct (IH (if 0 <? len then len - n else len) (wrap_i32 (cl + n)))
          as (b & t & Hrun & Hend & Hcnt & Hpos & Hrst & Hbeg & Hreq & Hall).
        exists b, (EvUpdateWrite n :: EvLog ("[OTA] Status: " ++ ofZ cl) :: t).
        split; [intros s; step; rewrite Hrun; reflexivity|].
        simpl. repeat split; try assumption; try lia.
        -- intros Hb. rewrite <- (Hcnt Hb), wrap_i32_add_l. f_equal. lia.
        -- repeat (constructor; [discriminate|]). assumption.
      * apply negb_false_iff, Z.eqb_eq in Hcmp.
        eexists true, _.
        split; [intros s; step; unfold ret; cbn [outcome trace fst snd];
                reflexivity|].
        simpl. repeat split; try reflexivity; try lia.
        -- intros _. rewrite <- Hcmp. f_equal. lia.
        -- repeat (constructor; [discriminate|]). constructor.
    + destruct (IH len cl)
        as (b & t & Hrun & Hend & Hcnt & Hpos & Hrst & Hbeg & Hreq & Hall).
      exists b, (EvDelay 1 :: t).
      split; [intros s; step; rewrite Hrun; reflexivity|].
      simpl. repeat split; try assumption.
      constructor; [discriminate | assumption].
Qed.

(** ** [updateFile] as a whole *)

(** [updateFile] always returns; what it returns and what it does to the
    outside world do not depend on the object; the object is left with the
    running flag cleared, or untouched when there is no base URL. *)
Lemma updateFile_spec (d : Download) (url file : string) :
  exists (b : bool) (t : list Event),
    (forall s, updateFile d url file s
               = (Returned b (if isEmpty url then s else with_otaIsRunning false s), t)) /\
    count_update_end t = (if b then 1 else 0)%nat /\
    (b = true -> wrap_i32 (bytes_written t) = content_length d) /\
    0 <= bytes_written t /\
    count_restarts t = 0%nat /\
    begun t = (if isEmpty url || negb (alloc_ok d) || negb (http_code d =? 200)
               then [] else [filetype_of file]) /\
    requested t = (if isEmpty url || negb (alloc_ok d)
                   then [] else [url ++ "/" ++ file]) /\
    (In EvAllocFailed t ->
     isEmpty url = false /\ alloc_ok d = false /\ b = false /\ flash_events t = []) /\
    (isEmpty url = false -> alloc_ok d = false -> In EvAllocFailed t) /\
    (b = true ->
     isEmpty url = false /\ alloc_ok d = true /\ (http_code d =? 200) = true).
Proof.
  unfold updateFile.
  destruct (isEmpty url) eqn:Hurl.
  { exists false, [EvLog "[OTA] No baseUrl configured"].
    split; [intros s; step; reflexivity|].
    simpl. do 6 (split; [first [reflexivity | lia | discriminate]|]).
    split; [intros H; not_in H|]. split; discriminate. }
  destruct (alloc_ok d) eqn:Halloc; cbn [negb].
  2:{ eexists false, _.
      split; [intros s; step; unfold ret; cbn [outcome trace fst snd]; reflexivity|].
      simpl. do 6 (split; [first [reflexivity | lia | discriminate]|]).
      split; [intros _; repeat split|].
      split; [intros _ _; left; reflexivity | discriminate]. }
  destruct (http_code d =? 200) eqn:Hcode.
  2:{ eexists false, _.
      split; [intros s; step; unfold ret; cbn [outcome trace fst snd]; reflexivity|].
      simpl. do 6 (split; [first [reflexivity | lia | discriminate]|]).
      split; [intros H; not_in H|]. split; discriminate. }
  destruct (updateFile_loop_spec (polls d) (content_length d) (content_length d) 0)
    as (b & t & Hrun & Hend & Hcnt & Hpos & Hrst & Hbeg & Hreq & Hall).
  assert (Hno : ~ In EvAllocFailed t).
  { intros H. rewrite Forall_forall in Hall. exact (Hall _ H eq_refl). }
  destruct b.
  - eexists true, _.
    split; [intros s; step; rewrite bind_run; step; rewrite Hrun;
            unfold ret; cbn [outcome trace fst snd]; rewrite app_nil_r; reflexivity|].
    simpl. rewrite Hbeg, Hreq, Hend, Hrst.
    split; [reflexivity|]. split; [intros _; apply (Hcnt eq_refl)|].
    do 4 (split; [first [reflexivity | lia]|]).
    split; [intros H; not_in H; contradiction|].
    split; [discriminate | intros _; repeat split].
  - eexists false, _.
    split; [intros s; step; rewrite bind_run; step; rewrite Hrun; step;
            unfold ret; cbn [outcome trace fst snd]; reflexivity|].
    simpl. rewrite begun_app, requested_app, count_update_end_app,
      count_restarts_app, bytes_written_app, Hbeg, Hreq, Hend, Hrst.
    simpl. do 6 (split; [first [reflexivity | lia | discriminate]|]).
    split; [intros H; not_in H|split; discriminate].
    apply in_app_or in H. destruct H as [H|H]; [contradiction | not_in H].
Qed.

Lemma updateFile_result (d : Download) (url file : string) (s : OTA) :
  exists b : bool,
    outcome (updateFile d url file s)
    = Returned b (if isEmpty url then s else with_otaIsRunning false s).
Proof.
  destruct (updateFile_spec d url file) as (b & t & Hrun & _).
  exists b. rewrite Hrun. reflexivity.
Qed.

(** The answer and the trace of [updateFile] are the same in every state. *)
Lemma updateFile_state_irrelevant (d : Download) (url file : string) (s s' : OTA) :
  result (updateFile d url file s) = result (updateFile d url file s') /\
  trace (updateFile d url file s) = trace (updateFile d url file s').
Proof.
  destruct (updateFile_spec d url file) as (b & t & Hrun & _).
  rewrite (Hrun s), (Hrun s'). split; reflexivity.
Qed.

(** ** [executeUpdate] as a whole *)

Lemma executeUpdate_no_url (d_fs d_app : Download) (s : OTA) :
  isEmpty (baseUrl s) = true ->
  executeUpdate d_fs d_app s = (Returned tt s, [EvLog "[OTA] No baseUrl configured"]).
Proof.
  intros H. unfold executeUpdate. step. rewrite H. reflexivity.
Qed.

Lemma executeUpdate_run (d_fs d_app : Download) (s : OTA) :
  isEmpty (baseUrl s) = false ->
  executeUpdate d_fs d_app s =
  match result (fs_run d_fs s), result (app_run d_app s) with
  | Some true, Some true =>
      (Restarted, (trace (fs_run d_fs s) ++ trace (app_run d_app s) ++ [EvRestart])%list)
  | Some true, _ =>
      (Returned tt (with_otaIsRunning false s),
       (trace (fs_run d_fs s) ++ trace (app_run d_app s) ++ [EvLog failed_msg])%list)
  | _, _ =>
      (Returned tt (with_otaIsRunning false s),
       (trace (fs_run d_fs s) ++ [EvLog failed_msg])%list)
  end.
Proof.
  intros Hurl. unfold executeUpdate, fs_run, app_run, fs_name, app_name.
  destruct (updateFile_spec d_fs (baseUrl s) "littlefs.bin") as (b1 & t1 & H1 & _).
  destruct (updateFile_spec d_app (baseUrl s) "firmware.bin") as (b2 & t2 & H2 & _).
  step. rewrite Hurl. step.
  rewrite bind_run, !H1. unfold result. cbn [outcome trace fst snd].
  rewrite Hurl. destruct b1.
  - rewrite bind_run, !H2. cbn [outcome trace fst snd]. rewrite Hurl.
    destruct b2.
    + unfold restart. cbn [outcome trace fst snd]. reflexivity.
    + step. unfold failed_msg. reflexivity.
  - rewrite bind_ret. step. unfold failed_msg. reflexivity.
Qed.

(** * The claims *)

(** C2. A download is finalized ([Update.end] called, [true] returned) only
    when the accumulated byte count equals the declared content length.
    The count is the [int] counter [currentLength], i.e. the number of
    bytes handed to [Update.write]; as long as it stays within an [int]
    it is that number itself.  With a known length that the bytes written
    disagree with, and with the length -1 (which a count of bytes never
    equals), [updateFile] returns [false]. *)
Theorem updateFile_finalizes_only_on_declared_length
    (d : Download) (url file : string) (s : OTA) :
  let r := updateFile d url file s in
  (result r = Some true <-> In EvUpdateEnd (trace r)) /\
  (result r = Some true ->
   wrap_i32 (bytes_written (trace r)) = content_length d) /\
  (result r = Some true -> bytes_written (trace r) <= INT_MAX ->
   bytes_written (trace r) = content_length d) /\
  (content_length d <> -1 -> bytes_written (trace r) <> content_length d ->
   bytes_written (trace r) <= INT_MAX -> result r = Some false) /\
  (content_length d = -1 -> bytes_written (trace r) <= INT_MAX ->
   result r = Some false).
Proof.
  destruct (updateFile_spec d url file)
    as (b & t & Hrun & Hend & Hcnt & Hpos & _).
  cbv zeta. rewrite Hrun. unfold result. cbn [outcome trace fst snd].
  assert (Hexact : b = true -> bytes_written t <= INT_MAX ->
                   bytes_written t = content_length d).
  { intros Hb Hle. rewrite <- (Hcnt Hb). symmetry. apply wrap_i32_small. lia. }
  split; [|split; [|split; [|split]]].
  - rewrite count_update_end_In, Hend. destruct b; split; intros H;
      first [reflexivity | lia | discriminate].
  - intros H. apply Hcnt. congruence.
  - intros H. apply Hexact. congruence.
  - intros _ Hne Hle. destruct b; [|reflexivity].
    exfalso. apply Hne. apply Hexact; [reflexivity | assumption].
  - intros Hunk Hle. destruct b; [|reflexivity].
    exfalso. specialize (Hexact eq_refl Hle). lia.
Qed.

Lemma updateFile_finalizes_only_on_declared_length_witness :
  bytes_written (trace (updateFile sample_download sample_url app_name sample_device)) = 10 /\
  result (updateFile sample_download_short sample_url app_name sample_device) = Some false /\
  result (updateFile sample_download_unsized sample_url app_name sample_device) = Some false.
Proof.
  split; [|split].
  - apply (proj1 (proj2 (proj2
      (updateFile_finalizes_only_on_declared_length
         sample_download sample_url app_name sample_device)))).
    + vm_compute. reflexivity.
    + vm_compute. discriminate.
  - apply (proj1 (proj2 (proj2 (proj2
      (updateFile_finalizes_only_on_declared_length
         sample_download_short sample_url app_name sample_device))))).
    + vm_compute. discriminate.
    + vm_compute. discriminate.
    + vm_compute. discriminate.
  - apply (proj2 (proj2 (proj2 (proj2
      (updateFile_finalizes_only_on_declared_length
         sample_download_unsized sample_url app_name sample_device))))).
    + vm_compute. reflexivity.
    + vm_compute. discriminate.
Defined.

(** C7. When the 128 KiB staging buffer cannot be allocated, [updateFile]
    returns [false], no call to the flasher has been made, and the running
    flag is cleared. *)
Theorem updateFile_allocation_failure
    (d : Download) (url file : string) (s : OTA) :
  let r := updateFile d url file s in
  (isEmpty url = false -> alloc_ok d = false -> In EvAllocFailed (trace r)) /\
  (In EvAllocFailed (trace r) ->
   result r = Some false /\
   flash_events (trace r) = [] /\
   final r = Some (with_otaIsRunning false s)).
Proof.
  destruct (updateFile_spec d url file)
    as (b & t & Hrun & _ & _ & _ & _ & _ & _ & Hfail & Hreach & _).
  cbv zeta. rewrite Hrun. unfold result, final. cbn [outcome trace fst snd].
  split; [exact Hreach|].
  intros Hin. destruct (Hfail Hin) as (Hurl & _ & Hb & Hflash).
  rewrite Hurl, Hb. repeat split. exact Hflash.
Qed.

Lemma updateFile_allocation_failure_witness :
  result (updateFile sample_download_no_memory sample_url app_name
            (with_otaIsRunning true sample_device)) = Some false /\
  flash_events (trace (updateFile sample_download_no_memory sample_url app_name
            (with_otaIsRunning true sample_device))) = [] /\
  final (updateFile sample_download_no_memory sample_url app_name
            (with_otaIsRunning true sample_device))
  = Some (with_otaIsRunning false (with_otaIsRunning true sample_device)).
Proof.
  apply (proj2 (updateFile_allocation_failure sample_download_no_memory
                  sample_url app_name (with_otaIsRunning true sample_device))).
  apply (proj1 (updateFile_allocation_failure sample_download_no_memory
                  sample_url app_name (with_otaIsRunning true sample_device)));
    reflexivity.
Defined.

(** ** Facts used for [executeUpdate] *)




(** What [updateFile_spec] says about the two transfers. *)
Lemma transfer_facts (d : Download) (file : string) (s s' : OTA) :
  isEmpty (baseUrl s) = false ->
  let r := updateFile d (baseUrl s) file s' in
  exists b : bool,
    result r = Some b /\
    final r = Some (with_otaIsRunning false s') /\
    count_update_end (trace r) = (if b then 1 else 0)%nat /\
    count_restarts (trace r) = 0%nat /\
    (begun (trace r) = [] \/ begun (trace r) = [filetype_of file]) /\
    (b = true -> begun (trace r) = [filetype_of file]) /\
    (requested (trace r) = [] \/ requested (trace r) = [baseUrl s ++ "/" ++ file]).
Proof.
  intros Hurl.
  destruct (updateFile_spec d (baseUrl s) file)
    as (b & t & Hrun & Hend & Hcnt & _ & Hrst & Hbeg & Hreq & _ & _ & Hok).
  cbv zeta. rewrite Hrun. unfold result, final. cbn [outcome trace fst snd].
  rewrite Hurl in *. cbn [orb] in *.
  exists b. repeat split; try assumption.
  - rewrite Hbeg. destruct (negb (alloc_ok d) || negb (http_code d =? 200)); auto.
  - intros Hb. destruct (Hok Hb) as (_ & Ha & Hc).
    rewrite Hbeg, Ha, Hc. reflexivity.
  - rewrite Hreq. destruct (negb (alloc_ok d)); auto.
Qed.



(** Restart and the value returned by [updateFile], for downloads that end:
    [executeUpdate] restarts the device at most once, and it does so exactly
    when both calls of [updateFile] returned [true], that is, when each
    stream delivered as many bytes as its header announced.  When a call
    returns [false] there is no restart, the running flag is cleared and the
    failure is logged.  What the flasher made of the bytes plays no part;
    the section on refused images below takes that up. *)
Theorem executeUpdate_restarts_only_after_both_transfers
    (d_fs d_app : Download) (s : OTA) :
  let r := executeUpdate d_fs d_app s in
  let fs := updateFile d_fs (baseUrl s) "littlefs.bin" (with_otaIsRunning true s) in
  let app := updateFile d_app (baseUrl s) "firmware.bin" (with_otaIsRunning false s) in
  (count_restarts (trace r) <= 1)%nat /\
  (count_restarts (trace r) = 1%nat <-> outcome r = Restarted) /\
  (count_restarts (trace r) = 1%nat <->
   isEmpty (baseUrl s) = false /\ result fs = Some true /\ result app = Some true) /\
  (count_restarts (trace r) = 1%nat ->
   count_update_end (trace r) = 2%nat /\ begun (trace r) = [U_SPIFFS; U_FLASH]) /\
  (isEmpty (baseUrl s) = false ->
   result fs <> Some true \/ result app <> Some true ->
   count_restarts (trace r) = 0%nat /\
   final r = Some (with_otaIsRunning false s) /\
   In (EvLog "[OTA] Failed to update firmware") (trace r)).
Proof.
  cbv zeta. destruct (isEmpty (baseUrl s)) eqn:Hurl.
  { rewrite (executeUpdate_no_url _ _ _ Hurl). cbn.
    split; [lia|]. split; [split; discriminate|].
    split; [split; [discriminate | intros (H & _); discriminate]|].
    split; discriminate. }
  rewrite (executeUpdate_run _ _ _ Hurl).
  unfold fs_run, app_run, fs_name, app_name.
  destruct (transfer_facts d_fs "littlefs.bin" s (with_otaIsRunning true s) Hurl)
    as (b1 & R1 & _ & E1 & C1 & _ & B1 & _).
  destruct (transfer_facts d_app "firmware.bin" s (with_otaIsRunning false s) Hurl)
    as (b2 & R2 & _ & E2 & C2 & _ & B2 & _).
  change (filetype_of "littlefs.bin") with U_SPIFFS in *.
  change (filetype_of "firmware.bin") with U_FLASH in *.
  set (fs := updateFile d_fs (baseUrl s) "littlefs.bin" (with_otaIsRunning true s)) in *.
  set (app := updateFile d_app (baseUrl s) "firmware.bin" (with_otaIsRunning false s)) in *.
  rewrite R1, R2.
  destruct b1, b2; unfold final; cbn [outcome trace fst snd];
    rewrite ?count_restarts_app, ?count_update_end_app, ?begun_app, ?C1, ?C2, ?E1, ?E2;
    simpl.
  - rewrite (B1 eq_refl), (B2 eq_refl).
    split; [lia|]. split; [split; reflexivity|].
    split; [split; intros _; repeat split|].
    split; [intros _; split; reflexivity|].
    intros _ [H|H]; exfalso; apply H; reflexivity.
  - split; [lia|]. split; [split; discriminate|].
    split; [split; [discriminate | intros (_ & _ & H); discriminate]|].
    split; [discriminate|].
    intros _ _. split; [reflexivity|]. split; [reflexivity|].
    apply in_or_app. right. apply in_or_app. right. left. reflexivity.
  - split; [lia|]. split; [split; discriminate|].
    split; [split; [discriminate | intros (_ & H & _); discriminate]|].
    split; [discriminate|].
    intros _ _. split; [reflexivity|]. split; [reflexivity|].
    apply in_or_app. right. left. reflexivity.
  - split; [lia|]. split; [split; discriminate|].
    split; [split; [discriminate | intros (_ & H & _); discriminate]|].
    split; [discriminate|].
    intros _ _. split; [reflexivity|]. split; [reflexivity|].
    apply in_or_app. right. left. reflexivity.
Qed.

Lemma executeUpdate_restarts_only_after_both_transfers_witness :
  count_restarts
    (trace (executeUpdate sample_download sample_download_short sample_device)) = 0%nat /\
  final (executeUpdate sample_download sample_download_short sample_device)
  = Some (with_otaIsRunning false sample_device) /\
  In (EvLog "[OTA] Failed to update firmware")
    (trace (executeUpdate sample_download sample_download_short sample_device)).
Proof.
  destruct (executeUpdate_restarts_only_after_both_transfers
              sample_download sample_download_short sample_device)
    as (_ & _ & _ & _ & H).
  apply H; [reflexivity|]. right. vm_compute. discriminate.
Defined.

(** ** [checkAvailableVersion] *)

(** [operator>] on [String] is the lexicographic order on the bytes. *)
Lemma gt_lexicographic (a b : ascii) (x y : string) :
  gt EmptyString y = false /\
  gt (String a x) EmptyString = true /\
  gt (String a x) (String b y)
  = match Ascii.compare a b with
    | Eq => gt x y
    | Gt => true
    | Lt => false
    end.
Proof.
  unfold gt. simpl. repeat split.
  - destruct y; reflexivity.
  - destruct (Ascii.compare a b); reflexivity.
Qed.

Lemma gt_iff (a b : string) : gt a b = true <-> (a ?= b)%string = Gt.
Proof.
  unfold gt. destruct (a ?= b)%string; split; intros H;
    first [reflexivity | discriminate].
Qed.

Lemma checkAvailableVersion_no_url (doc : Metadata) (s : OTA) :
  isEmpty (baseUrl s) = true ->
  checkAvailableVersion doc s
  = (Returned false s, [EvLog "[OTA] No baseUrl configured"]).
Proof.
  intros H. unfold checkAvailableVersion. step. rewrite H. step. reflexivity.
Qed.

Lemma checkAvailableVersion_invalid (doc : Metadata) (s : OTA) :
  isEmpty (baseUrl s) = false ->
  invalid_response (as_String (md_date doc)) (as_String (md_revision doc)) = true ->
  checkAvailableVersion doc s
  = (Returned false s,
     [EvHttpBegin (baseUrl s ++ "/current-version.json"); EvHttpGet; EvHttpEnd;
      EvLog ("[OTA] Invalid response or json in " ++ baseUrl s
             ++ "/current-version.json")]).
Proof.
  intros H Hinv. unfold checkAvailableVersion. step. rewrite H. step.
  rewrite Hinv. step. reflexivity.
Qed.

Lemma checkAvailableVersion_valid (doc : Metadata) (s : OTA) :
  isEmpty (baseUrl s) = false ->
  invalid_response (as_String (md_date doc)) (as_String (md_revision doc)) = false ->
  checkAvailableVersion doc s
  = if gt (as_String (md_date doc)) (currentFwDate s) then
      (Returned true (with_newReleaseAvailable true s),
       [EvHttpBegin (baseUrl s ++ "/current-version.json"); EvHttpGet; EvHttpEnd;
        EvLog ("[OTA] Newer firmware available: " ++ as_String (md_date doc)
               ++ " vs " ++ currentFwDate s);
        EvLog "[OTA] No newer firmware available"])
    else
      (Returned true s,
       [EvHttpBegin (baseUrl s ++ "/current-version.json"); EvHttpGet; EvHttpEnd;
        EvLog "[OTA] No newer firmware available"]).
Proof.
  intros H Hinv. unfold checkAvailableVersion. step. rewrite H. step.
  rewrite Hinv. rewrite bind_run.
  destruct (gt (as_String (md_date doc)) (currentFwDate s)); step; reflexivity.
Qed.

Lemma missing_or_null_invalid (doc : Metadata) :
  missing_or_null (md_date doc) \/ missing_or_null (md_revision doc) ->
  invalid_response (as_String (md_date doc)) (as_String (md_revision doc)) = true.
Proof.
  unfold invalid_response.
  intros [[H|[H|[H|H]]] | [H|[H|[H|H]]]]; rewrite H; cbn [as_String];
    rewrite ?orb_true_r; try reflexivity;
    destruct (as_String (md_date doc)) eqn:E; try reflexivity;
    cbn [isEmpty orb]; rewrite ?orb_true_r; reflexivity.
Qed.

(** C3. The version check orders the date fields as strings: for a
    well-formed response, the new-release flag is raised exactly when the
    remote date is lexicographically greater than the date of the running
    firmware; an older or equal date raises nothing. *)
Theorem checkAvailableVersion_compares_dates (doc : Metadata) (s : OTA) :
  isEmpty (baseUrl s) = false ->
  invalid_response (as_String (md_date doc)) (as_String (md_revision doc)) = false ->
  let remote := as_String (md_date doc) in
  let r := checkAvailableVersion doc s in
  result r = Some true /\
  final r = Some (if gt remote (currentFwDate s)
                  then with_newReleaseAvailable true s else s) /\
  (gt remote (currentFwDate s) = true <-> (remote ?= currentFwDate s)%string = Gt) /\
  (newReleaseAvailable s = false ->
   forall s', final r = Some s' ->
     (newReleaseAvailable s' = true <-> (remote ?= currentFwDate s)%string = Gt)).
Proof.
  intros Hurl Hvalid. cbv zeta.
  rewrite (checkAvailableVersion_valid _ _ Hurl Hvalid).
  pose proof (gt_iff (as_String (md_date doc)) (currentFwDate s)) as Hgt.
  destruct (gt (as_String (md_date doc)) (currentFwDate s));
    unfold result, final; cbn [outcome fst];
    (split; [reflexivity|]); (split; [reflexivity|]); (split; [exact Hgt|]);
    intros Hflag s' E; injection E as <-.
  - cbn. rewrite <- Hgt. tauto.
  - rewrite Hflag, <- Hgt. tauto.
Qed.

Lemma checkAvailableVersion_compares_dates_witness :
  final (checkAvailableVersion (mkMetadata (JString "2024-06-15") (JString "2.0"))
           sample_device)
  = Some (with_newReleaseAvailable true sample_device) /\
  final (checkAvailableVersion (mkMetadata (JString "2023-12-01") (JString "2.0"))
           sample_device)
  = Some sample_device /\
  final (checkAvailableVersion (mkMetadata (JString "2024-01-01") (JString "2.0"))
           sample_device)
  = Some sample_device.
Proof.
  split; [|split].
  - exact (proj1 (proj2 (checkAvailableVersion_compares_dates
      (mkMetadata (JString "2024-06-15") (JString "2.0")) sample_device
      eq_refl eq_refl))).
  - exact (proj1 (proj2 (checkAvailableVersion_compares_dates
      (mkMetadata (JString "2023-12-01") (JString "2.0")) sample_device
      eq_refl eq_refl))).
  - exact (proj1 (proj2 (checkAvailableVersion_compares_dates
      (mkMetadata (JString "2024-01-01") (JString "2.0")) sample_device
      eq_refl eq_refl))).
Defined.

(** C4. A metadata response whose date or revision is absent, null, empty
    or the string "null" makes [checkAvailableVersion] return [false] and
    leaves the object as it was: the new-release flag is not set, the
    flasher is not called and no image is requested. *)
Theorem checkAvailableVersion_rejects_invalid_metadata (doc : Metadata) (s : OTA) :
  missing_or_null (md_date doc) \/ missing_or_null (md_revision doc) ->
  let r := checkAvailableVersion doc s in
  result r = Some false /\
  final r = Some s /\
  flash_events (trace r) = [] /\
  (forall u, In u (requested (trace r)) -> u = baseUrl s ++ "/current-version.json").
Proof.
  intros Hbad. cbv zeta.
  destruct (isEmpty (baseUrl s)) eqn:Hurl.
  - rewrite (checkAvailableVersion_no_url _ _ Hurl).
    repeat split. intros u [].
  - rewrite (checkAvailableVersion_invalid _ _ Hurl (missing_or_null_invalid _ Hbad)).
    repeat split. intros u [H|[]]. symmetry. exact H.
Qed.

Lemma checkAvailableVersion_rejects_invalid_metadata_witness :
  result (checkAvailableVersion (mkMetadata (JString "2024-06-15") JAbsent)
            sample_device) = Some false /\
  final (checkAvailableVersion (mkMetadata (JString "2024-06-15") JAbsent)
           sample_device) = Some sample_device.
Proof.
  destruct (checkAvailableVersion_rejects_invalid_metadata
              (mkMetadata (JString "2024-06-15") JAbsent) sample_device)
    as (H1 & H2 & _).
  - right. left. reflexivity.
  - split; [exact H1 | exact H2].
Defined.

(** ** [setVersionCheckInterval] *)

Lemma minutes_to_millis_wrap (arg : Z) :
  minutes_to_millis (wrap_u32 arg) = wrap_u32 (arg * 60 * 1000).
Proof.
  unfold minutes_to_millis, wrap_u32.
  rewrite (Z.mul_mod_idemp_l arg 60) by lia.
  rewrite Z.mul_mod_idemp_l by lia.
  reflexivity.
Qed.

Lemma setVersionCheckInterval_final (nvs : Nvs) (arg : Z) (s : OTA) :
  final (setVersionCheckInterval nvs arg s)
  = Some (with_intervalVersionCheckMillis (wrap_u32 (arg * 60 * 1000)) s).
Proof.
  unfold setVersionCheckInterval. rewrite bind_run.
  rewrite <- minutes_to_millis_wrap.
  destruct (nvs_begin_ok nvs); [destruct (negb (nvs_put nvs =? 0))|];
    step; reflexivity.
Qed.

(** C9, as stated, fails: no minimum is enforced, and an argument of 0
    stores an interval of zero milliseconds. *)
Lemma setVersionCheckInterval_minimum_counterexample :
  exists s',
    final (setVersionCheckInterval (mkNvs true 8) 0 sample_device) = Some s' /\
    intervalVersionCheckMillis s' = 0.
Proof.
  eexists. split; [vm_compute; reflexivity | reflexivity].
Qed.

(** C9, amended. [setVersionCheckInterval] stores [minutes * 60 * 1000]
    reduced modulo 2^32 and enforces no minimum.  For 1 <= minutes <= 71582
    the stored interval is minutes * 60000 ms, hence at least one minute;
    for 0 it is zero. *)
Theorem setVersionCheckInterval_stores_wrapped_product
    (nvs : Nvs) (arg : Z) (s : OTA) :
  exists s',
    final (setVersionCheckInterval nvs arg s) = Some s' /\
    s' = with_intervalVersionCheckMillis (intervalVersionCheckMillis s') s /\
    intervalVersionCheckMillis s' = (arg * 60 * 1000) mod 2 ^ 32 /\
    (0 <= arg <= 71582 -> intervalVersionCheckMillis s' = arg * 60000) /\
    (1 <= arg <= 71582 -> 60000 <= intervalVersionCheckMillis s') /\
    (arg = 0 -> intervalVersionCheckMillis s' = 0).
Proof.
  eexists. split; [apply setVersionCheckInterval_final|].
  cbn [with_intervalVersionCheckMillis intervalVersionCheckMillis].
  unfold wrap_u32.
  split; [reflexivity|]. split; [reflexivity|].
  split; [|split].
  - intros H. rewrite Z.mod_small; lia.
  - intros H. rewrite Z.mod_small; lia.
  - intros ->. reflexivity.
Qed.

Lemma setVersionCheckInterval_stores_wrapped_product_witness :
  exists s',
    final (setVersionCheckInterval (mkNvs true 8) 60 sample_device) = Some s' /\
    intervalVersionCheckMillis s' = 3600000 /\
    60000 <= intervalVersionCheckMillis s'.
Proof.
  destruct (setVersionCheckInterval_stores_wrapped_product
              (mkNvs true 8) 60 sample_device)
    as (s' & Hfin & _ & _ & Heq & Hmin & _).
  exists s'. split; [exact Hfin|]. split.
  - apply Heq. lia.
  - apply Hmin. lia.
Defined.

(** ** The GET [/config] handler *)

(** C10. The response of the GET [/config] handler does not depend on the
    stored OTA password: whatever the password is, the handler sends the
    same response, whose [otaPassword] member is the empty string, and
    leaves the object unchanged. *)
Theorem configGetHandler_hides_password (s : OTA) (p1 p2 : string) :
  trace (configGetHandler (with_otaPassword p1 s))
  = trace (configGetHandler (with_otaPassword p2 s)) /\
  trace (configGetHandler (with_otaPassword p1 s))
  = [EvSend 200 (Json.serializeJson (configDocument s))] /\
  Json.member "otaPassword" (configDocument (with_otaPassword p1 s))
  = Some (Json.Str EmptyString) /\
  final (configGetHandler (with_otaPassword p1 s)) = Some (with_otaPassword p1 s).
Proof.
  unfold configGetHandler. step. repeat split.
Qed.

(** ** The running flag is never read *)

Lemma agree_refl (s : OTA) : agree_up_to_flag s s.
Proof. reflexivity. Qed.

Lemma agree_flag (b : bool) (s : OTA) : agree_up_to_flag (with_otaIsRunning b s) s.
Proof. reflexivity. Qed.

Lemma agree_fields (s1 s2 : OTA) :
  agree_up_to_flag s1 s2 ->
  newReleaseAvailable s1 = newReleaseAvailable s2 /\
  baseUrl s1 = baseUrl s2 /\
  lastVersionCheckMillis s1 = lastVersionCheckMillis s2 /\
  intervalVersionCheckMillis s1 = intervalVersionCheckMillis s2 /\
  currentFwDate s1 = currentFwDate s2 /\
  networkReady s1 = networkReady s2 /\
  initialCheck s1 = initialCheck s2 /\
  otaPassword s1 = otaPassword s2.
Proof.
  unfold agree_up_to_flag, with_otaIsRunning. destruct s1, s2. cbn.
  intros H. injection H as -> -> -> -> -> -> -> -> ->. repeat split.
Qed.

Lemma agree_set_flag (a : bool) (s1 s2 : OTA) :
  agree_up_to_flag s1 s2 -> with_otaIsRunning a s1 = with_otaIsRunning a s2.
Proof.
  unfold agree_up_to_flag, with_otaIsRunning. destruct s1, s2. cbn.
  intros H. injection H as -> -> -> -> -> -> -> -> ->. reflexivity.
Qed.


Lemma same_run_refl {A} (r : Outcome A * list Event) : same_run r r.
Proof.
  split; [reflexivity|]. destruct (outcome r); [split; reflexivity | exact I].
Qed.

Lemma same_run_ret {A} (a : A) (s1 s2 : OTA) :
  agree_up_to_flag s1 s2 -> same_run (ret a s1) (ret a s2).
Proof. intros H. split; [reflexivity | split; [reflexivity | exact H]]. Qed.

Lemma same_run_bind {A B} (m1 m2 : M A) (k1 k2 : A -> M B) (s1 s2 : OTA) :
  same_run (m1 s1) (m2 s2) ->
  (forall a s1' s2', agree_up_to_flag s1' s2' -> same_run (k1 a s1') (k2 a s2')) ->
  same_run (bind m1 k1 s1) (bind m2 k2 s2).
Proof.
  intros [Ht Ho] Hk. rewrite !bind_run.
  destruct (outcome (m1 s1)) as [a1 s1'|], (outcome (m2 s2)) as [a2 s2'|];
    try contradiction.
  - destruct Ho as [<- Hag]. destruct (Hk a1 _ _ Hag) as [Ht' Ho'].
    split; cbn [outcome trace fst snd]; [rewrite Ht, Ht'; reflexivity | exact Ho'].
  - split; cbn [outcome trace fst snd]; [exact Ht | exact I].
Qed.

Lemma same_run_emit {A} (e : Event) (k1 k2 : unit -> M A) (s1 s2 : OTA) :
  same_run (k1 tt s1) (k2 tt s2) ->
  same_run (bind (emit e) k1 s1) (bind (emit e) k2 s2).
Proof.
  intros [Ht Ho]. rewrite !bind_emit. split; cbn [outcome trace fst snd];
    [rewrite Ht; reflexivity | exact Ho].
Qed.

Lemma updateFile_same_run (d : Download) (url file : string) (s1 s2 : OTA) :
  agree_up_to_flag s1 s2 ->
  same_run (updateFile d url file s1) (updateFile d url file s2).
Proof.
  intros H. destruct (updateFile_spec d url file) as (b & t & Hrun & _).
  rewrite (Hrun s1), (Hrun s2). split; [reflexivity|].
  cbn [outcome fst]. split; [reflexivity|].
  destruct (isEmpty url); [exact H|].
  unfold agree_up_to_flag. rewrite !with_otaIsRunning_twice. exact H.
Qed.

Lemma executeUpdate_same_run (d_fs d_app : Download) (s1 s2 : OTA) :
  agree_up_to_flag s1 s2 ->
  same_run (executeUpdate d_fs d_app s1) (executeUpdate d_fs d_app s2).
Proof.
  intros H. destruct (agree_fields _ _ H) as (_ & Hurl & _).
  destruct (isEmpty (baseUrl s1)) eqn:E.
  - rewrite (executeUpdate_no_url _ _ s1 E).
    rewrite Hurl in E. rewrite (executeUpdate_no_url _ _ s2 E).
    split; [reflexivity | split; [reflexivity | exact H]].
  - rewrite (executeUpdate_run _ _ s1 E).
    rewrite Hurl in E. rewrite (executeUpdate_run _ _ s2 E).
    unfold fs_run, app_run. rewrite Hurl.
    rewrite (agree_set_flag true _ _ H), (agree_set_flag false _ _ H).
    apply same_run_refl.
Qed.



Lemma same_run_emit_end (e : Event) (s1 s2 : OTA) :
  agree_up_to_flag s1 s2 -> same_run (emit e s1) (emit e s2).
Proof. intros H. split; [reflexivity | split; [reflexivity | exact H]]. Qed.

Lemma same_run_set_flag_end (a : bool) (s1 s2 : OTA) :
  agree_up_to_flag s1 s2 ->
  same_run (modify (with_otaIsRunning a) s1) (modify (with_otaIsRunning a) s2).
Proof.
  intros H. split; [reflexivity | split; [reflexivity|]].
  rewrite (agree_set_flag a _ _ H). apply agree_refl.
Qed.

Lemma same_run_set_flag {A} (a : bool) (k1 k2 : unit -> M A) (s1 s2 : OTA) :
  (forall s1' s2', agree_up_to_flag s1' s2' -> same_run (k1 tt s1') (k2 tt s2')) ->
  agree_up_to_flag s1 s2 ->
  same_run (bind (modify (with_otaIsRunning a)) k1 s1)
           (bind (modify (with_otaIsRunning a)) k2 s2).
Proof.
  intros Hk H. rewrite !bind_modify. apply Hk.
  rewrite (agree_set_flag a _ _ H). apply agree_refl.
Qed.

Lemma same_run_restart (s1 s2 : OTA) : same_run (restart s1) (restart s2).
Proof. split; [reflexivity | exact I]. Qed.

(** Discharge [same_run] goals over straight-line code. *)
Ltac blind :=
  unfold logMessage;
  repeat first
    [ apply same_run_restart
    | apply same_run_ret; assumption
    | apply same_run_emit_end; assumption
    | apply same_run_set_flag_end; assumption
    | apply same_run_emit
    | apply same_run_set_flag; [intros ? ? ?|assumption] ].

Lemma uploadHandler_same_run (c : UploadChunk) (s1 s2 : OTA) :
  agree_up_to_flag s1 s2 ->
  same_run (uploadHandler c s1) (uploadHandler c s2).
Proof.
  intros H. unfold uploadHandler. rewrite !bind_get.
  destruct (agree_fields _ _ H) as (_ & _ & _ & _ & _ & _ & _ & Hpw).
  rewrite Hpw.
  destruct (negb (length (otaPassword s2) =? 0)
            && negb (authenticate c "ota" (otaPassword s2))).
  { blind. }
  apply same_run_bind.
  { destruct (up_index c =? 0); [|blind].
    blind. destruct (negb (up_begin_ok c)); blind. }
  clear s1 H Hpw. intros _ s1 s3 H.
  blind. apply same_run_bind.
  { destruct (negb (up_written c =? up_len c)); blind. }
  clear s1 s3 H. intros _ s1 s3 H.
  destruct (up_final c); [|blind].
  blind. destruct (negb (up_end_ok c)); blind.
Qed.

(** ** The running flag as a guard *)

(** C1, as stated, fails: the running flag is not checked.  After the
    first chunk of an upload the flag is set and a transfer is open, yet
    [updateFile] goes on to [Update.begin] and [Update.write] and returns
    [true]; along the way two transfers are open at once. *)
Lemma running_flag_guard_counterexample :
  exists s1,
    final (uploadHandler sample_first_chunk sample_device) = Some s1 /\
    otaIsRunning s1 = true /\
    result (updateFile sample_download sample_url app_name s1) = Some true /\
    In (EvUpdateWrite 4) (trace (updateFile sample_download sample_url app_name s1)) /\
    open_max 0
      (trace (run_ops [OpUpload sample_first_chunk;
                       OpUpdateFile sample_download sample_url app_name]
                sample_device)) = 2%nat.
Proof.
  eexists. split; [vm_compute; reflexivity|].
  split; [reflexivity|]. split; [vm_compute; reflexivity|].
  split; [|vm_compute; reflexivity].
  vm_compute. repeat (first [left; reflexivity | right]).
Qed.

Lemma uploadHandler_begins (c : UploadChunk) (s : OTA) :
  up_index c = 0 ->
  otaPassword s = EmptyString \/ authenticate c "ota" (otaPassword s) = true ->
  begun (trace (uploadHandler c s)) = [filetype_of (up_filename c)].
Proof.
  intros Hidx Hauth. unfold uploadHandler. rewrite bind_get.
  replace (negb (length (otaPassword s) =? 0)
           && negb (authenticate c "ota" (otaPassword s))) with false
    by (destruct Hauth as [-> | ->]; [reflexivity | rewrite andb_comm; reflexivity]).
  rewrite Hidx. cbn [Z.eqb].
  unfold bind, emit, modify, ret, restart, logMessage, trace.
  destruct (negb (up_begin_ok c)), (negb (up_written c =? up_len c)),
    (up_final c), (negb (up_end_ok c)); reflexivity.
Qed.

(** C1, amended.  The operations that start a transfer never read the
    running flag: [updateFile], [executeUpdate] and the upload handler
    produce the same trace and the same answer whether the flag is set or
    clear when they are entered, and with the flag set they still call
    [Update.begin] (for a reachable image, for the first chunk of an
    authorised upload).  No call fails because a transfer is open. *)
Theorem transfer_starts_never_read_running_flag (s : OTA) (b : bool) :
  (forall d url file,
     same_run (updateFile d url file (with_otaIsRunning b s))
              (updateFile d url file s)) /\
  (forall d_fs d_app,
     same_run (executeUpdate d_fs d_app (with_otaIsRunning b s))
              (executeUpdate d_fs d_app s)) /\
  (forall c,
     same_run (uploadHandler c (with_otaIsRunning b s)) (uploadHandler c s)) /\
  (forall d url file,
     isEmpty url = false -> alloc_ok d = true -> http_code d = 200 ->
     begun (trace (updateFile d url file (with_otaIsRunning b s)))
     = [filetype_of file]) /\
  (forall c,
     up_index c = 0 ->
     otaPassword s = EmptyString \/ authenticate c "ota" (otaPassword s) = true ->
     begun (trace (uploadHandler c (with_otaIsRunning b s)))
     = [filetype_of (up_filename c)]).
Proof.
  split; [|split; [|split; [|split]]].
  - intros. apply updateFile_same_run, agree_flag.
  - intros. apply executeUpdate_same_run, agree_flag.
  - intros. apply uploadHandler_same_run, agree_flag.
  - intros d url file Hurl Ha Hc.
    destruct (updateFile_spec d url file)
      as (b' & t & Hrun & _ & _ & _ & _ & Hbeg & _).
    rewrite Hrun. cbn [trace snd]. rewrite Hbeg, Hurl, Ha, Hc. reflexivity.
  - intros c Hidx Hauth. apply uploadHandler_begins; assumption.
Qed.

Lemma transfer_starts_never_read_running_flag_witness :
  begun (trace (updateFile sample_download sample_url app_name
                  (with_otaIsRunning true sample_device))) = [U_FLASH] /\
  begun (trace (uploadHandler sample_first_chunk
                  (with_otaIsRunning true sample_device))) = [U_FLASH].
Proof.
  destruct (transfer_starts_never_read_running_flag sample_device true)
    as (_ & _ & _ & H1 & H2).
  split.
  - apply (H1 sample_download sample_url app_name); reflexivity.
  - apply (H2 sample_first_chunk); [reflexivity | left; reflexivity].
Defined.

(** ** Downloads over a connection that need not close *)

(** The values answered by the flasher are dropped where they are bound. *)
Lemma Update_write_discarded {A} (fl : Flasher) (n : Z) (k : M A) (s : OTA) :
  bind (Update_write fl n) (fun _ => k) s = bind (emit (EvUpdateWrite n)) (fun _ => k) s.
Proof.
  unfold Update_write, bind, emit, ret. destruct (k s). reflexivity.
Qed.

Lemma Update_end_discarded {A} (fl : Flasher) (k : M A) (s : OTA) :
  bind (Update_end fl) (fun _ => k) s = bind (emit EvUpdateEnd) (fun _ => k) s.
Proof.
  unfold Update_end, bind, emit, ret. destruct (k s). reflexivity.
Qed.

Lemma Update_begin_discarded {A} (fl : Flasher) (cmd : UpdateCmd) (k : M A) (s : OTA) :
  bind (Update_begin fl cmd) (fun _ => k) s
  = bind (emit (EvUpdateBegin cmd)) (fun _ => k) s.
Proof.
  unfold Update_begin, bind, emit, ret. destruct (k s). reflexivity.
Qed.

Ltac discard :=
  rewrite ?Update_write_discarded, ?Update_end_discarded, ?Update_begin_discarded.

Ltac run := repeat (progress (rewrite ?bind_assoc; discard; step)).

Lemma ended_bind (m : M unit) (s : OTA) :
  bind m (fun _ => ret (Some tt)) s = ended (m s).
Proof.
  unfold bind, ret, ended. destruct (m s) as [[[] s'|] t]; cbn [fst snd];
    [rewrite app_nil_r|]; reflexivity.
Qed.



(** On a connection that closes, the loop with passes ends as the loop over
    the script does, once the passes outnumber the answers. *)
Lemma updateFile_loop_passes_closing (fl : Flasher) (ps : list Poll) :
  forall n totalLength len currentLength s,
    (List.length ps < n)%nat ->
    updateFile_loop_passes n fl (stream_of ps) totalLength len currentLength s
    = ended (updateFile_loop ps totalLength len currentLength s).
Proof.
  induction ps as [|p ps IH]; intros n tl len cl s Hn;
    (destruct n as [|n]; [simpl in Hn; lia|]).
  - reflexivity.
  - simpl in Hn. cbn [updateFile_loop_passes updateFile_loop].
    change (stream_of (p :: ps) O) with p.
    change (fun k => stream_of (p :: ps) (S k)) with (stream_of ps).
    destruct (connected p && ((0 <? len) || (len =? -1))); [|reflexivity].
    destruct (negb (wrap_u32 (available p) =? 0)).
    + set (m := readBytes p _).
      discard. unfold logMessage. rewrite !bind_emit.
      destruct (negb (wrap_i32 (cl + m) =? tl)).
      * rewrite IH by lia. reflexivity.
      * reflexivity.
    + rewrite !bind_emit. rewrite IH by lia. reflexivity.
Qed.

(** The answers of the flasher play no part in the loop. *)
Lemma updateFile_loop_passes_flasher (fl fl' : Flasher) (n : nat) :
  forall st totalLength len currentLength s,
    updateFile_loop_passes n fl st totalLength len currentLength s
    = updateFile_loop_passes n fl' st totalLength len currentLength s.
Proof.
  induction n as [|n IH]; intros st tl len cl s; [reflexivity|].
  cbn [updateFile_loop_passes].
  destruct (connected (st O) && ((0 <? len) || (len =? -1))); [|reflexivity].
  destruct (negb (wrap_u32 (available (st O)) =? 0)).
  - set (m := readBytes (st O) _).
    discard. unfold logMessage. rewrite !bind_emit.
    destruct (negb (wrap_i32 (cl + m) =? tl)).
    + rewrite (IH _ tl _ _ s). reflexivity.
    + reflexivity.
  - rewrite !bind_emit, (IH _ tl len cl s). reflexivity.
Qed.



(** *** [updateFile] *)



Lemma updateFile_passes_closing (fl : Flasher) (d : Download) (n : nat)
    (url file : string) (s : OTA) :
  (List.length (polls d) < n)%nat ->
  updateFile_passes n (transfer_of fl d) url file s = ended (updateFile d url file s).
Proof.
  intros Hn. unfold updateFile_passes, updateFile, transfer_of.
  cbn [tf_alloc_ok tf_http_code tf_content_length tf_stream tf_flasher].
  destruct (isEmpty url); [step; reflexivity|].
  destruct (alloc_ok d); cbn [negb];
    [|step; unfold ret, ended; cbn [outcome trace fst snd]; reflexivity].
  destruct (http_code d =? 200).
  2:{ step. unfold ret, ended. cbn [outcome trace fst snd]. reflexivity. }
  run.
  rewrite (bind_run (updateFile_loop_passes n fl (stream_of (polls d))
                       (content_length d) (content_length d) 0)).
  rewrite (bind_run (updateFile_loop (polls d)
                       (content_length d) (content_length d) 0)).
  rewrite (updateFile_loop_passes_closing fl (polls d) n _ _ _ _ Hn).
  destruct (updateFile_loop_spec (polls d) (content_length d) (content_length d) 0)
    as (b & t & Hrun & _).
  rewrite Hrun. unfold ended. cbn [outcome trace fst snd].
  destruct b; step; unfold ret; cbn [outcome trace fst snd]; reflexivity.
Qed.

Lemma updateFile_passes_flasher (fl : Flasher) (n : nat) (tf : Transfer)
    (url file : string) (s : OTA) :
  updateFile_passes n (with_flasher fl tf) url file s
  = updateFile_passes n tf url file s.
Proof.
  unfold updateFile_passes, with_flasher.
  cbn [tf_alloc_ok tf_http_code tf_content_length tf_stream tf_flasher].
  destruct (isEmpty url); [reflexivity|].
  destruct (tf_alloc_ok tf); cbn [negb]; [|reflexivity].
  destruct (tf_http_code tf =? 200); [|reflexivity].
  run.
  rewrite (bind_run (updateFile_loop_passes n fl (tf_stream tf)
                       (tf_content_length tf) (tf_content_length tf) 0)).
  rewrite (bind_run (updateFile_loop_passes n (tf_flasher tf) (tf_stream tf)
                       (tf_content_length tf) (tf_content_length tf) 0)).
  rewrite (updateFile_loop_passes_flasher fl (tf_flasher tf)). reflexivity.
Qed.


(** *** [executeUpdate] *)


Lemma executeUpdate_passes_closing (fl_fs fl_app : Flasher) (d_fs d_app : Download)
    (n : nat) (s : OTA) :
  (List.length (polls d_fs) < n)%nat ->
  (List.length (polls d_app) < n)%nat ->
  executeUpdate_passes n (transfer_of fl_fs d_fs) (transfer_of fl_app d_app) s
  = ended (executeUpdate d_fs d_app s).
Proof.
  intros Hfs Happ. unfold executeUpdate_passes, executeUpdate. step.
  destruct (isEmpty (baseUrl s)) eqn:Hurl; [step; reflexivity|].
  step.
  destruct (updateFile_spec d_fs (baseUrl s) "littlefs.bin") as (b1 & t1 & H1 & _).
  destruct (updateFile_spec d_app (baseUrl s) "firmware.bin") as (b2 & t2 & H2 & _).
  rewrite (bind_run (updateFile_passes n _ _ _)),
    (bind_run (updateFile d_fs _ _)).
  rewrite (updateFile_passes_closing fl_fs d_fs n _ _ _ Hfs), !H1.
  unfold ended at 1 2. cbn [outcome trace fst snd]. rewrite Hurl.
  destruct b1.
  - rewrite (bind_run (updateFile_passes n _ _ _)),
      (bind_run (updateFile d_app _ _)).
    rewrite (updateFile_passes_closing fl_app d_app n _ _ _ Happ), !H2.
    unfold ended at 1 2. cbn [outcome trace fst snd]. rewrite Hurl.
    destruct b2; [reflexivity|]. step. reflexivity.
  - step. reflexivity.
Qed.

(** The answers of the flasher play no part in [executeUpdate]. *)
Lemma executeUpdate_passes_flasher (fl_fs fl_app : Flasher) (n : nat)
    (tf_fs tf_app : Transfer) (s : OTA) :
  executeUpdate_passes n (with_flasher fl_fs tf_fs) (with_flasher fl_app tf_app) s
  = executeUpdate_passes n tf_fs tf_app s.
Proof.
  unfold executeUpdate_passes. step.
  destruct (isEmpty (baseUrl s)); [reflexivity|]. step.
  rewrite (bind_run (updateFile_passes n (with_flasher fl_fs tf_fs) _ _)),
    (bind_run (updateFile_passes n tf_fs _ _)).
  rewrite !updateFile_passes_flasher.
  destruct (outcome (updateFile_passes n tf_fs (baseUrl s) "littlefs.bin"
                       (with_otaIsRunning true s))) as [[[|]|] s1|];
    [|reflexivity|reflexivity|reflexivity].
  rewrite (bind_run (updateFile_passes n (with_flasher fl_app tf_app) _ _)),
    (bind_run (updateFile_passes n tf_app _ _)).
  rewrite !updateFile_passes_flasher. reflexivity.
Qed.


(** *** [loop] *)

Lemma loop_passes_closing (fl_fs fl_app : Flasher) (tk : Tick) (n : nat) (s : OTA) :
  (List.length (polls (tk_fs tk)) < n)%nat ->
  (List.length (polls (tk_app tk)) < n)%nat ->
  loop_passes n tk (transfer_of fl_fs (tk_fs tk)) (transfer_of fl_app (tk_app tk)) s
  = ended (loop tk s).
Proof.
  intros Hfs Happ. unfold loop_passes, loop. rewrite !bind_get.
  destruct (newReleaseAvailable s).
  - rewrite (bind_run (executeUpdate_passes n _ _)),
      (bind_run (executeUpdate (tk_fs tk) (tk_app tk))).
    rewrite (executeUpdate_passes_closing _ _ _ _ n s Hfs Happ).
    unfold ended at 1 2. cbn [outcome trace fst snd].
    destruct (executeUpdate (tk_fs tk) (tk_app tk) s) as [[[] s'|] t];
      cbn [outcome trace fst snd]; [|reflexivity].
    rewrite !bind_get, ended_bind. reflexivity.
  - rewrite !bind_ret, !bind_get, ended_bind. reflexivity.
Qed.


(** ** Restart after an image that the flasher refused *)

Lemma uploadHandler_refused_end (c : UploadChunk) (s : OTA) :
  up_end_ok c = false ->
  count_restarts (trace (uploadHandler c s)) = 0%nat.
Proof.
  intros Hend. unfold uploadHandler. rewrite bind_get, Hend.
  destruct (negb (length (otaPassword s) =? 0)
            && negb (authenticate c "ota" (otaPassword s))); [reflexivity|].
  destruct (up_index c =? 0), (up_begin_ok c), (negb (up_written c =? up_len c)),
    (up_final c); reflexivity.
Qed.

(** C6.  [executeUpdate] restarts the device although no transfer completed
    successfully.  The server delivers both images in full, ten bytes
    announced and ten bytes sent, and the flasher refuses them:
    [Update.begin] answers [false], [Update.write] answers 0 bytes written
    and [Update.end] answers [false].  [updateFile] drops these answers
    (lines 521, 538 and 544) and returns [true] because the byte counts
    agree, so [executeUpdate] restarts the device, once.  The answers of the
    flasher play no part in any run of [executeUpdate].  The upload callback
    (lines 342-361) does look at [Update.end]: it never restarts when that
    call answers [false]. *)
Theorem executeUpdate_restarts_on_refused_image :
  let r := executeUpdate_passes 4 refused_transfer refused_transfer sample_device in
  (fl_begin_ok (tf_flasher refused_transfer) = false /\
   (forall n, fl_written (tf_flasher refused_transfer) n = 0) /\
   fl_end_ok (tf_flasher refused_transfer) = false) /\
  outcome r = Restarted /\
  count_restarts (trace r) = 1%nat /\
  flash_events (trace r)
  = [EvUpdateBegin U_SPIFFS; EvUpdateWrite 4; EvUpdateWrite 6; EvUpdateEnd;
     EvUpdateBegin U_FLASH; EvUpdateWrite 4; EvUpdateWrite 6; EvUpdateEnd] /\
  (forall n fl_fs fl_app tf_fs tf_app s,
     executeUpdate_passes n (with_flasher fl_fs tf_fs) (with_flasher fl_app tf_app) s
     = executeUpdate_passes n tf_fs tf_app s) /\
  (forall c s,
     up_end_ok c = false -> count_restarts (trace (uploadHandler c s)) = 0%nat).
Proof.
  cbv zeta.
  split; [split; [reflexivity | split; [intros n; reflexivity | reflexivity]]|].
  split; [vm_compute; reflexivity|].
  split; [vm_compute; reflexivity|].
  split; [vm_compute; reflexivity|].
  split.
  - intros n fl_fs fl_app tf_fs tf_app s. apply executeUpdate_passes_flasher.
  - intros c s. apply uploadHandler_refused_end.
Qed.

(** ** No lock-out after a failed update *)








(** * Further properties *)

(** ** The staging buffer of [updateFile] *)

Lemma count_alloc_app (t u : list Event) :
  count_alloc (t ++ u) = (count_alloc t + count_alloc u)%nat.
Proof.
  induction t as [|e t IH]; simpl; [reflexivity|].
  destruct e; rewrite ?IH; reflexivity.
Qed.

Lemma count_free_app (t u : list Event) :
  count_free (t ++ u) = (count_free t + count_free u)%nat.
Proof.
  induction t as [|e t IH]; simpl; [reflexivity|].
  destruct e; rewrite ?IH; reflexivity.
Qed.

Lemma chunk_size_le (p : Poll) :
  (if wrap_u32 bufferAllocationLen <? wrap_u32 (available p)
   then bufferAllocationLen else wrap_u32 (available p)) <= bufferAllocationLen.
Proof.
  destruct (wrap_u32 bufferAllocationLen <? wrap_u32 (available p)) eqn:E;
    [lia|].
  apply Z.ltb_ge in E. exact E.
Qed.

(** Inside the loop nothing is allocated, the buffer is released exactly
    when the loop completes, and no write is longer than the buffer. *)
Lemma updateFile_loop_buffer (ps : list Poll) (totalLength : Z) :
  forall len currentLength, exists (b : bool) (t : list Event),
    (forall s, updateFile_loop ps totalLength len currentLength s
               = (Returned b (if b then with_otaIsRunning false s else s), t)) /\
    count_alloc t = 0%nat /\
    count_free t = (if b then 1 else 0)%nat /\
    Forall write_fits t.
Proof.
  induction ps as [|p rest IH]; intros len cl.
  - exists false, []. simpl. split; [reflexivity|]. repeat split. constructor.
  - cbn [updateFile_loop].
    destruct (connected p && ((0 <? len) || (len =? -1))).
    2:{ exists false, []. simpl. split; [reflexivity|]. repeat split. constructor. }
    destruct (negb (wrap_u32 (available p) =? 0)).
    + pose proof (readBytes_nonneg p _ (chunk_size_nonneg p)) as Hlo.
      pose proof (Z.le_trans _ _ _ (readBytes_le p _) (chunk_size_le p)) as Hhi.
      set (n := readBytes p _) in *.
      destruct (negb (wrap_i32 (cl + n) =? totalLength)).
      * destruct (IH (if 0 <? len then len - n else len) (wrap_i32 (cl + n)))
          as (b & t & Hrun & Ha & Hf & Hw).
        exists b, (EvUpdateWrite n :: EvLog ("[OTA] Status: " ++ ofZ cl) :: t).
        split; [intros s; step; rewrite Hrun; reflexivity|].
        simpl. split; [exact Ha|]. split; [exact Hf|].
        constructor; [simpl; lia|]. constructor; [exact I | exact Hw].
      * eexists true, _.
        split; [intros s; step; unfold ret; cbn [outcome trace fst snd];
                reflexivity|].
        simpl. split; [reflexivity|]. split; [reflexivity|].
        constructor; [simpl; lia|]. repeat (constructor; [exact I|]). constructor.
    + destruct (IH len cl) as (b & t & Hrun & Ha & Hf & Hw).
      exists b, (EvDelay 1 :: t).
      split; [intros s; step; rewrite Hrun; reflexivity|].
      simpl. split; [exact Ha|]. split; [exact Hf|].
      constructor; [exact I | exact Hw].
Qed.

(** X1. [updateFile] releases the staging buffer exactly once on every
    path on which it obtained it, and never otherwise: the trace holds as
    many [delete[]] as successful [new], namely one when a base URL is given
    and the allocation succeeds, and none in the other cases. *)
Theorem updateFile_frees_buffer_once
    (d : Download) (url file : string) (s : OTA) :
  let t := trace (updateFile d url file s) in
  count_free t = count_alloc t /\
  count_alloc t = (if negb (isEmpty url) && alloc_ok d then 1 else 0)%nat.
Proof.
  cbv zeta. unfold updateFile.
  destruct (isEmpty url); [step; split; reflexivity|].
  destruct (alloc_ok d); cbn [negb andb];
    [|step; unfold ret; cbn [outcome trace fst snd]; split; reflexivity].
  destruct (http_code d =? 200).
  2:{ step. unfold ret. cbn [outcome trace fst snd]. split; reflexivity. }
  destruct (updateFile_loop_buffer (polls d) (content_length d) (content_length d) 0)
    as (b & t & Hrun & Ha & Hf & _).
  step. rewrite bind_run. step. rewrite Hrun. cbn [outcome trace fst snd].
  destruct b; step; unfold ret; cbn [outcome trace fst snd]; simpl;
    rewrite ?count_free_app, ?count_alloc_app, Ha, Hf; simpl; split; lia.
Qed.

(** X2. No call of [Update.write] made by [updateFile] passes more bytes
    than the 128 KiB staging buffer holds, nor a negative count, whatever
    the stream reports as available. *)
Theorem updateFile_writes_fit_buffer
    (d : Download) (url file : string) (s : OTA) :
  Forall write_fits (trace (updateFile d url file s)).
Proof.
  unfold updateFile.
  destruct (isEmpty url); [step; repeat constructor|].
  destruct (alloc_ok d); cbn [negb];
    [|step; unfold ret; cbn [outcome trace fst snd]; repeat constructor].
  destruct (http_code d =? 200).
  2:{ step. unfold ret. cbn [outcome trace fst snd]. repeat constructor. }
  destruct (updateFile_loop_buffer (polls d) (content_length d) (content_length d) 0)
    as (b & t & Hrun & _ & _ & Hw).
  step. rewrite bind_run. step. rewrite Hrun. cbn [outcome trace fst snd].
  repeat (constructor; [exact I|]).
  apply Forall_app. split; [exact Hw|].
  destruct b; step; unfold ret; cbn [outcome trace fst snd]; repeat constructor.
Qed.

(** ** A stream that delivers what it announced *)

Lemma read_of_nonneg (p : Poll) : 0 <= read_of p.
Proof.
  unfold read_of. destruct (wrap_u32 (available p) =? 0); [lia|].
  apply readBytes_nonneg, chunk_size_nonneg.
Qed.

Lemma reads_nonneg (ps : list Poll) : 0 <= reads ps.
Proof.
  induction ps as [|p ps IH]; simpl; [lia|].
  pose proof (read_of_nonneg p). lia.
Qed.

Lemma updateFile_loop_completes (L : Z) (ps : list Poll) :
  L <= INT_MAX ->
  forall c rest s,
    0 <= c < L ->
    reads ps = L - c ->
    Forall (fun p => connected p = true) ps ->
    exists t,
      updateFile_loop (ps ++ rest) L (L - c) c s
      = (Returned true (with_otaIsRunning false s), t) /\
      bytes_written t = L - c.
Proof.
  intros Hmax. induction ps as [|p ps IH]; intros c rest s Hc Hsum Hconn.
  - simpl in Hsum. lia.
  - inversion Hconn as [|? ? Hp Hps]; subst.
    simpl in Hsum. pose proof (reads_nonneg ps) as Hrest.
    pose proof (read_of_nonneg p) as Hread.
    cbn [app updateFile_loop]. rewrite Hp.
    replace (0 <? L - c) with true by (symmetry; apply Z.ltb_lt; lia).
    cbn [andb orb].
    unfold read_of in Hsum, Hread. cbv zeta in Hsum, Hread.
    destruct (wrap_u32 (available p) =? 0); cbn [negb].
    + destruct (IH c rest s Hc ltac:(lia) Hps) as (t & Hrun & Hb).
      exists (EvDelay 1 :: t). split; [step; rewrite Hrun; reflexivity|].
      simpl. exact Hb.
    + set (n := readBytes p _) in *.
      rewrite (wrap_i32_small (c + n)) by lia.
      destruct (c + n =? L) eqn:E; cbn [negb].
      * apply Z.eqb_eq in E.
        eexists. split; [step; unfold ret; cbn [outcome trace fst snd];
                         reflexivity|].
        simpl. lia.
      * apply Z.eqb_neq in E.
        replace (L - c - n) with (L - (c + n)) by lia.
        destruct (IH (c + n) rest s ltac:(lia) ltac:(lia) Hps) as (t & Hrun & Hb).
        exists (EvUpdateWrite n :: EvLog ("[OTA] Status: " ++ ofZ c) :: t).
        split; [step; rewrite Hrun; reflexivity|].
        simpl. lia.
Qed.

(** X3. When the server answers 200, announces a positive length that
    fits an [int], keeps the connection open and delivers exactly the
    announced number of bytes, [updateFile] completes: it returns [true]
    and has handed exactly that many bytes to [Update.write], whatever else
    the stream would have answered afterwards. *)
Theorem updateFile_completes_on_exact_delivery
    (d : Download) (url file : string) (s : OTA) (ps rest : list Poll) :
  isEmpty url = false ->
  alloc_ok d = true ->
  http_code d = 200 ->
  polls d = (ps ++ rest)%list ->
  Forall (fun p => connected p = true) ps ->
  0 < content_length d <= INT_MAX ->
  reads ps = content_length d ->
  result (updateFile d url file s) = Some true /\
  bytes_written (trace (updateFile d url file s)) = content_length d /\
  count_update_end (trace (updateFile d url file s)) = 1%nat.
Proof.
  intros Hurl Ha Hc Hpolls Hconn HL Hsum.
  destruct (updateFile_loop_completes (content_length d) ps (proj2 HL) 0 rest
              (with_otaIsRunning true s) ltac:(lia) ltac:(lia) Hconn)
    as (t & Hrun & Hb).
  rewrite Z.sub_0_r in Hrun, Hb.
  destruct (updateFile_spec d url file) as (b & t' & Hspec & Hend & _).
  assert (E : updateFile d url file s
              = (Returned true (with_otaIsRunning false s),
                 ([EvAlloc; EvHttpBegin (url ++ "/" ++ file);
                   EvLog ("[OTA] Firmware type: "
                          ++ match filetype_of file with
                             | U_SPIFFS => "spiffs" | U_FLASH => "flash" end);
                   EvLog ("[OTA] Firmware url:  " ++ url ++ "/" ++ file);
                   EvHttpGet; EvUpdateBegin (filetype_of file);
                   EvLog ("[OTA] Firmware size: " ++ ofZ (content_length d));
                   EvLog "[OTA] Begin firmware upgrade..."] ++ t)%list)).
  { unfold updateFile. rewrite Hurl, Ha, Hc. cbn [negb Z.eqb Pos.eqb].
    step. rewrite bind_run. step. rewrite Hpolls, Hrun.
    cbn [outcome trace fst snd]. unfold ret. cbn [outcome trace fst snd].
    rewrite app_nil_r. reflexivity. }
  pose proof (Hspec s) as E'. rewrite E in E'.
  assert (Hb1 : b = true) by (inversion E'; reflexivity).
  assert (Ht : trace (updateFile d url file s) = t') by (rewrite Hspec; reflexivity).
  subst b. rewrite Ht, Hend. rewrite <- Ht, E.
  unfold result. cbn [outcome trace fst snd].
  split; [reflexivity|]. split; [|reflexivity].
  rewrite bytes_written_app. simpl. exact Hb.
Qed.

Lemma updateFile_completes_on_exact_delivery_witness :
  result (updateFile sample_download sample_url "firmware.bin" sample_device)
  = Some true /\
  bytes_written (trace (updateFile sample_download sample_url "firmware.bin"
                          sample_device)) = 10 /\
  count_update_end (trace (updateFile sample_download sample_url "firmware.bin"
                             sample_device)) = 1%nat.
Proof.
  apply (updateFile_completes_on_exact_delivery sample_download sample_url
           "firmware.bin" sample_device
           [mkPoll true 4 4; mkPoll true 0 0; mkPoll true 6 6] []).
  - reflexivity.
  - reflexivity.
  - reflexivity.
  - reflexivity.
  - repeat constructor.
  - vm_compute. split; [reflexivity | discriminate].
  - reflexivity.
Defined.

(** ** Failing downloads *)

(** X4. A download that fails after the server answered 200 leaves the
    flasher with a transfer begun and not ended: [Update.begin] has been
    called once, [Update.end] not at all, and [updateFile] returns [false]
    with the running flag cleared. *)
Theorem updateFile_failure_leaves_transfer_begun
    (d : Download) (url file : string) (s : OTA) :
  isEmpty url = false ->
  alloc_ok d = true ->
  http_code d = 200 ->
  result (updateFile d url file s) = Some false ->
  begun (trace (updateFile d url file s)) = [filetype_of file] /\
  count_update_end (trace (updateFile d url file s)) = 0%nat /\
  final (updateFile d url file s) = Some (with_otaIsRunning false s).
Proof.
  intros Hurl Ha Hc.
  destruct (updateFile_spec d url file)
    as (b & t & Hrun & Hend & _ & _ & _ & Hbeg & _).
  rewrite Hrun. unfold result, final. cbn [outcome trace fst snd].
  intros Hb. injection Hb as ->.
  rewrite Hbeg, Hend, Hurl, Ha, Hc. repeat split.
Qed.

Lemma updateFile_failure_leaves_transfer_begun_witness :
  begun (trace (updateFile sample_download_short sample_url "firmware.bin"
                  sample_device)) = [U_FLASH] /\
  count_update_end (trace (updateFile sample_download_short sample_url
                             "firmware.bin" sample_device)) = 0%nat /\
  final (updateFile sample_download_short sample_url "firmware.bin" sample_device)
  = Some (with_otaIsRunning false sample_device).
Proof.
  apply (updateFile_failure_leaves_transfer_begun sample_download_short
           sample_url "firmware.bin" sample_device); reflexivity.
Defined.

(** X5. An announced length of zero, or a negative one other than -1, is
    never installed: the loop body is not entered, so not a single byte is
    written, [Update.end] is not called and [updateFile] returns [false],
    whatever the stream holds. *)
Theorem updateFile_rejects_empty_length
    (d : Download) (url file : string) (s : OTA) :
  content_length d <= 0 ->
  content_length d <> -1 ->
  result (updateFile d url file s) = Some false /\
  bytes_written (trace (updateFile d url file s)) = 0 /\
  count_update_end (trace (updateFile d url file s)) = 0%nat.
Proof.
  intros Hle Hne. unfold updateFile.
  destruct (isEmpty url); [step; repeat split|].
  destruct (alloc_ok d); cbn [negb];
    [|step; unfold ret; cbn [outcome trace fst snd]; repeat split].
  destruct (http_code d =? 200).
  2:{ step. unfold ret. cbn [outcome trace fst snd]. repeat split. }
  assert (Hloop : forall s',
             updateFile_loop (polls d) (content_length d) (content_length d) 0 s'
             = (Returned false s', [])).
  { intros s'. destruct (polls d) as [|p ps]; [reflexivity|].
    cbn [updateFile_loop].
    replace (0 <? content_length d) with false
      by (symmetry; apply Z.ltb_ge; lia).
    replace (content_length d =? -1) with false
      by (symmetry; apply Z.eqb_neq; exact Hne).
    rewrite andb_false_r. reflexivity. }
  step. rewrite bind_run. step. rewrite Hloop. step.
  unfold ret, result. cbn [outcome trace fst snd]. repeat split.
Qed.

Lemma updateFile_rejects_empty_length_witness :
  result (updateFile (mkDownload true 200 0 [mkPoll true 4 4]) sample_url
            "firmware.bin" sample_device) = Some false /\
  bytes_written (trace (updateFile (mkDownload true 200 0 [mkPoll true 4 4])
                          sample_url "firmware.bin" sample_device)) = 0 /\
  count_update_end (trace (updateFile (mkDownload true 200 0 [mkPoll true 4 4])
                             sample_url "firmware.bin" sample_device)) = 0%nat.
Proof.
  apply (updateFile_rejects_empty_length (mkDownload true 200 0 [mkPoll true 4 4])
           sample_url "firmware.bin" sample_device).
  - vm_compute. discriminate.
  - discriminate.
Defined.

(** ** The choice of the partition *)

Lemma prefix_spec (p s : string) :
  String.prefix p s = true <-> exists post, s = p ++ post.
Proof.
  revert s. induction p as [|a p IH]; intros s.
  - split; [intros _; exists s; reflexivity | intros _; destruct s; reflexivity].
  - destruct s as [|b s]; simpl.
    + split; [discriminate | intros (post & H); discriminate].
    + destruct (ascii_dec a b) as [->|Hab].
      * rewrite IH. split; intros (post & H); exists post.
        -- rewrite H. reflexivity.
        -- injection H as H. exact H.
      * split; [discriminate|]. intros (post & H). injection H as H _.
        congruence.
Qed.

Lemma indexOf_from_found (s pat : string) :
  forall i, 0 <= i ->
    ((-1 <? indexOf_from i s pat) = true <-> contains s pat).
Proof.
  unfold contains.
  induction s as [|c s IH]; intros i Hi; cbn [indexOf_from].
  - destruct (String.prefix pat EmptyString) eqn:E.
    + split; [|intros _; apply Z.ltb_lt; lia]. intros _.
      apply prefix_spec in E. destruct E as (post & E).
      exists EmptyString, post. exact E.
    + split; [discriminate|]. intros (pre & post & H).
      destruct pre; [|discriminate].
      assert (String.prefix pat EmptyString = true)
        by (apply prefix_spec; exists post; exact H).
      congruence.
  - destruct (String.prefix pat (String c s)) eqn:E.
    + split; [|intros _; apply Z.ltb_lt; lia]. intros _.
      apply prefix_spec in E. destruct E as (post & E).
      exists EmptyString, post. exact E.
    + rewrite (IH (i + 1)) by lia. split.
      * intros (pre & post & H). exists (String c pre), post.
        simpl. rewrite H. reflexivity.
      * intros (pre & post & H). destruct pre as [|c' pre].
        -- assert (String.prefix pat (String c s) = true)
             by (apply prefix_spec; exists post; exact H).
           congruence.
        -- simpl in H. injection H as _ H. exists pre, post. exact H.
Qed.

Lemma indexOf_found (s pat : string) :
  pat <> EmptyString ->
  ((-1 <? indexOf s pat) = true <-> contains s pat).
Proof.
  intros Hpat. unfold indexOf. destruct s as [|c s].
  - simpl. split; [discriminate|]. intros (pre & post & H).
    destruct pre; [|discriminate]. destruct pat; [congruence | discriminate].
  - replace (length (String c s) <=? 0) with false
      by (symmetry; apply Z.leb_gt; unfold length; simpl; lia).
    apply indexOf_from_found. lia.
Qed.

(** X6. An image goes to the file system partition exactly when its file
    name contains [spiffs] or [littlefs], wherever in the name; every other
    name selects the application partition. *)
Theorem filetype_of_by_name (filename : string) :
  (filetype_of filename = U_SPIFFS <->
   contains filename "spiffs" \/ contains filename "littlefs") /\
  (filetype_of filename = U_FLASH <->
   ~ (contains filename "spiffs" \/ contains filename "littlefs")).
Proof.
  unfold filetype_of.
  pose proof (indexOf_found filename "spiffs" ltac:(discriminate)) as H1.
  pose proof (indexOf_found filename "littlefs" ltac:(discriminate)) as H2.
  destruct (-1 <? indexOf filename "spiffs").
  - cbn [orb]. assert (Hs : contains filename "spiffs") by (apply H1; reflexivity).
    split; split.
    + intros _. left. exact Hs.
    + reflexivity.
    + discriminate.
    + intros Hn. exfalso. apply Hn. left. exact Hs.
  - destruct (-1 <? indexOf filename "littlefs"); cbn [orb].
    + assert (Hl : contains filename "littlefs") by (apply H2; reflexivity).
      split; split.
      * intros _. right. exact Hl.
      * reflexivity.
      * discriminate.
      * intros Hn. exfalso. apply Hn. right. exact Hl.
    + assert (Hn : ~ (contains filename "spiffs" \/ contains filename "littlefs")).
      { intros [H|H]; [apply H1 in H | apply H2 in H]; discriminate. }
      split; split.
      * discriminate.
      * intros H. destruct (Hn H).
      * intros _. exact Hn.
      * reflexivity.
Qed.

Lemma filetype_of_by_name_witness :
  filetype_of "data-littlefs-v2.bin" = U_SPIFFS.
Proof.
  apply (proj1 (filetype_of_by_name "data-littlefs-v2.bin")).
  right. exists "data-", "-v2.bin". reflexivity.
Defined.

(** ** The revision in the metadata *)

(** X7. The revision of the metadata has to be there, but its value plays
    no part in the check: two responses with the same date and any two
    acceptable revisions give the same run, and the release string of the
    running firmware is never looked at. *)
Theorem checkAvailableVersion_ignores_revision
    (date rev1 rev2 : JsonMember) (release : string) (s : OTA) :
  invalid_response (as_String date) (as_String rev1) = false ->
  invalid_response (as_String date) (as_String rev2) = false ->
  checkAvailableVersion (mkMetadata date rev1) s
  = checkAvailableVersion (mkMetadata date rev2) s /\
  trace (checkAvailableVersion (mkMetadata date rev1)
           (setFirmware (currentFwDate s) release s))
  = trace (checkAvailableVersion (mkMetadata date rev1) s) /\
  result (checkAvailableVersion (mkMetadata date rev1)
            (setFirmware (currentFwDate s) release s))
  = result (checkAvailableVersion (mkMetadata date rev1) s).
Proof.
  intros V1 V2.
  destruct (isEmpty (baseUrl s)) eqn:Hurl.
  - rewrite !checkAvailableVersion_no_url by exact Hurl.
    repeat split.
  - rewrite (checkAvailableVersion_valid (mkMetadata date rev1) s Hurl V1).
    rewrite (checkAvailableVersion_valid (mkMetadata date rev2) s Hurl V2).
    rewrite (checkAvailableVersion_valid (mkMetadata date rev1)
               (setFirmware (currentFwDate s) release s) Hurl V1).
    cbn [md_date md_revision setFirmware baseUrl currentFwDate].
    destruct (gt (as_String date) (currentFwDate s)); repeat split.
Qed.

Lemma checkAvailableVersion_ignores_revision_witness :
  checkAvailableVersion (mkMetadata (JString "2024-06-15") (JString "2.0"))
    sample_device
  = checkAvailableVersion (mkMetadata (JString "2024-06-15") (JString "0.1"))
      sample_device.
Proof.
  apply (checkAvailableVersion_ignores_revision
           (JString "2024-06-15") (JString "2.0") (JString "0.1") "9.9"
           sample_device); reflexivity.
Defined.

(** ** What the entry points leave alone *)

Lemma config_kept_refl (s : OTA) : config_kept s s.
Proof. unfold config_kept. repeat split. intros H. exact H. Qed.

Lemma config_kept_trans (s1 s2 s3 : OTA) :
  config_kept s1 s2 -> config_kept s2 s3 -> config_kept s1 s3.
Proof.
  unfold config_kept.
  intros (A1 & A2 & A3 & A4 & A5 & A6 & A7) (B1 & B2 & B3 & B4 & B5 & B6 & B7).
  repeat split; try congruence. intros H. apply B7, A7, H.
Qed.

Lemma keeps_ret {A} (a : A) : keeps_config (ret a).
Proof. intros s a' s' H. injection H as _ <-. apply config_kept_refl. Qed.

Lemma keeps_emit (e : Event) : keeps_config (emit e).
Proof. intros s a' s' H. injection H as _ <-. apply config_kept_refl. Qed.

Lemma keeps_restart : keeps_config restart.
Proof. intros s a' s' H. discriminate H. Qed.

Lemma keeps_modify (f : OTA -> OTA) :
  (forall s, config_kept s (f s)) -> keeps_config (modify f).
Proof. intros Hf s a' s' H. injection H as _ <-. apply Hf. Qed.

Lemma keeps_bind {A B} (m : M A) (k : A -> M B) :
  keeps_config m -> (forall a, keeps_config (k a)) -> keeps_config (bind m k).
Proof.
  intros Hm Hk s b s' H. rewrite bind_run in H.
  destruct (outcome (m s)) as [a s1|] eqn:E; [|discriminate H].
  cbn [outcome fst] in H.
  apply (config_kept_trans _ s1); [exact (Hm _ _ _ E) | exact (Hk a _ _ _ H)].
Qed.

Lemma keeps_get_bind {A} (k : OTA -> M A) :
  (forall s0, keeps_config (k s0)) -> keeps_config (bind get k).
Proof. intros Hk s a s' H. rewrite bind_get in H. exact (Hk s _ _ _ H). Qed.

Lemma keeps_set_flag (b : bool) : keeps_config (modify (with_otaIsRunning b)).
Proof.
  apply keeps_modify. intros s. unfold config_kept. cbn.
  repeat split. intros H. exact H.
Qed.

(** Discharge [keeps_config] goals over straight-line code. *)
Ltac keeps :=
  unfold logMessage;
  repeat first
    [ apply keeps_ret | apply keeps_emit | apply keeps_restart
    | apply keeps_set_flag
    | apply keeps_bind; [|intros ?]
    | apply keeps_get_bind; intros ? ].

Lemma updateFile_keeps_config (d : Download) (url file : string) :
  keeps_config (updateFile d url file).
Proof.
  intros s b s' H.
  destruct (updateFile_spec d url file) as (b' & t & Hrun & _).
  rewrite Hrun in H. injection H as _ <-.
  destruct (isEmpty url); [apply config_kept_refl|].
  unfold config_kept. cbn. repeat split. intros H. exact H.
Qed.

Lemma executeUpdate_keeps_config (d_fs d_app : Download) :
  keeps_config (executeUpdate d_fs d_app).
Proof.
  unfold executeUpdate. apply keeps_get_bind. intros s0.
  destruct (isEmpty (baseUrl s0)); [keeps|].
  apply keeps_bind; [apply keeps_set_flag|]. intros _.
  apply keeps_bind; [apply updateFile_keeps_config|]. intros ok_fs.
  apply keeps_bind.
  - destruct ok_fs; [apply updateFile_keeps_config | apply keeps_ret].
  - intros ok. destruct ok; keeps.
Qed.

Lemma checkAvailableVersion_keeps_config (doc : Metadata) :
  keeps_config (checkAvailableVersion doc).
Proof.
  unfold checkAvailableVersion. apply keeps_get_bind. intros s0.
  destruct (isEmpty (baseUrl s0)); [keeps|].
  do 3 (apply keeps_bind; [apply keeps_emit|]; intros _).
  destruct (invalid_response _ _); [keeps|].
  apply keeps_bind; [|intros _; keeps].
  destruct (gt _ _); [|keeps].
  apply keeps_bind; [keeps|]. intros _.
  apply keeps_modify. intros s. unfold config_kept. cbn. repeat split.
Qed.

Lemma loop_keeps_config (tk : Tick) : keeps_config (loop tk).
Proof.
  unfold loop. apply keeps_get_bind. intros s0.
  apply keeps_bind.
  { destruct (newReleaseAvailable s0);
      [apply executeUpdate_keeps_config | apply keeps_ret]. }
  intros _. apply keeps_get_bind. intros s1.
  destruct (networkReady s1); [|keeps].
  apply keeps_bind.
  - destruct (initialCheck s1).
    + destruct (_ <? _); [keeps|].
      apply keeps_bind; [|intros _; keeps].
      apply keeps_modify. intros s. unfold config_kept. cbn.
      repeat split. intros H. exact H.
    + apply keeps_bind; [|intros _; keeps].
      apply keeps_modify. intros s. unfold config_kept. cbn.
      repeat split. intros H. exact H.
  - intros due. destruct due; [|keeps].
    destruct (isEmpty (baseUrl s1)); [keeps|].
    apply keeps_bind; [keeps|]. intros _.
    apply keeps_bind; [apply checkAvailableVersion_keeps_config|].
    intros _. keeps.
Qed.

Lemma uploadHandler_keeps_config (c : UploadChunk) :
  keeps_config (uploadHandler c).
Proof.
  unfold uploadHandler. apply keeps_get_bind. intros s0.
  destruct (_ && _); [keeps|].
  apply keeps_bind.
  { destruct (up_index c =? 0); [|keeps].
    keeps. destruct (negb (up_begin_ok c)); keeps. }
  intros _. apply keeps_bind; [keeps|]. intros _.
  apply keeps_bind; [destruct (negb (up_written c =? up_len c)); keeps|].
  intros _. destruct (up_final c); [|keeps].
  keeps. destruct (negb (up_end_ok c)); keeps.
Qed.

Lemma run_ops_keeps_config (ops : list Op) : keeps_config (run_ops ops).
Proof.
  induction ops as [|o ops IH]; cbn [run_ops]; [apply keeps_ret|].
  apply keeps_bind; [|intros _; exact IH].
  destruct o; cbn [run_op].
  - apply uploadHandler_keeps_config.
  - apply keeps_bind; [apply updateFile_keeps_config | intros _; apply keeps_ret].
  - apply executeUpdate_keeps_config.
  - apply loop_keeps_config.
Qed.

(** X8. No sequence of ticks, scheduled updates, downloads and upload
    chunks changes the configuration: when such a sequence returns, the
    base URL, the OTA password, the check interval, the identification of
    the running firmware and the network flag are what they were, and a
    release that was flagged is still flagged. *)
Theorem entry_points_keep_configuration (ops : list Op) (s s' : OTA) :
  final (run_ops ops s) = Some s' ->
  baseUrl s' = baseUrl s /\
  otaPassword s' = otaPassword s /\
  intervalVersionCheckMillis s' = intervalVersionCheckMillis s /\
  currentFwDate s' = currentFwDate s /\
  currentFwRelease s' = currentFwRelease s /\
  networkReady s' = networkReady s /\
  (newReleaseAvailable s = true -> newReleaseAvailable s' = true).
Proof.
  unfold final. intros H.
  pose proof (run_ops_keeps_config ops s) as K. unfold outcome in K.
  destruct (fst (run_ops ops s)) as [[] s1|]; [|discriminate H].
  injection H as <-. exact (K tt s1 eq_refl).
Qed.

Lemma entry_points_keep_configuration_witness :
  baseUrl (with_otaIsRunning false sample_device) = baseUrl sample_device /\
  otaPassword (with_otaIsRunning false sample_device) = otaPassword sample_device.
Proof.
  destruct (entry_points_keep_configuration
              [OpUpload sample_first_chunk;
               OpExecuteUpdate sample_download_short sample_download]
              sample_device (with_otaIsRunning false sample_device))
    as (H1 & H2 & _).
  - vm_compute. reflexivity.
  - split; [exact H1 | exact H2].
Defined.

(** ** The schedule of [loop] *)

(** With a base URL, the version check returns, asks for the metadata
    only, and at most raises the new-release flag. *)
Lemma checkAvailableVersion_facts (doc : Metadata) (s : OTA) :
  isEmpty (baseUrl s) = false ->
  exists (b : bool) (s' : OTA) (t : list Event),
    checkAvailableVersion doc s = (Returned b s', t) /\
    requested t = [metadata_url s] /\
    flash_events t = [] /\
    count_restarts t = 0%nat /\
    (s' = s \/
     s' = with_newReleaseAvailable true s /\
     invalid_response (as_String (md_date doc)) (as_String (md_revision doc)) = false /\
     gt (as_String (md_date doc)) (currentFwDate s) = true) /\
    (invalid_response (as_String (md_date doc)) (as_String (md_revision doc)) = false ->
     gt (as_String (md_date doc)) (currentFwDate s) = true ->
     s' = with_newReleaseAvailable true s).
Proof.
  intros Hurl. unfold metadata_url.
  destruct (invalid_response (as_String (md_date doc)) (as_String (md_revision doc)))
    eqn:V.
  - rewrite (checkAvailableVersion_invalid _ _ Hurl V).
    eexists _, _, _. split; [reflexivity|].
    repeat split; try discriminate. left. reflexivity.
  - rewrite (checkAvailableVersion_valid _ _ Hurl V).
    destruct (gt (as_String (md_date doc)) (currentFwDate s)).
    + eexists _, _, _. split; [reflexivity|].
      split; [reflexivity|]. split; [reflexivity|]. split; [reflexivity|].
      split; [right; repeat split | intros _ _; reflexivity].
    + eexists _, _, _. split; [reflexivity|].
      split; [reflexivity|]. split; [reflexivity|]. split; [reflexivity|].
      split; [left; reflexivity | discriminate].
Qed.

(** One tick without a flagged release, spelled out. *)
Lemma loop_without_release (tk : Tick) (s : OTA) :
  newReleaseAvailable s = false ->
  loop tk s =
  if due tk s then
    if isEmpty (baseUrl s) then (Returned tt (checked_at tk s), [])
    else
      (match outcome (checkAvailableVersion (tk_doc tk) (checked_at tk s)) with
       | Returned _ s2 => Returned tt s2
       | Restarted => Restarted
       end,
       EvLog "[OTA] Searching a new firmware release"
       :: trace (checkAvailableVersion (tk_doc tk) (checked_at tk s)))
  else (Returned tt s, []).
Proof.
  intros Hflag. unfold loop, due, checked_at. step. rewrite Hflag. step.
  destruct (networkReady s); cbn [andb]; [|reflexivity].
  destruct (initialCheck s); cbn [negb orb].
  - destruct (wrap_u64 (millis1 tk - lastVersionCheckMillis s)
              <? intervalVersionCheckMillis s); cbn [negb].
    + step. reflexivity.
    + rewrite bind_assoc. step. destruct (isEmpty (baseUrl s)); [reflexivity|].
      step. rewrite bind_run.
      destruct (outcome (checkAvailableVersion (tk_doc tk)
                           (with_lastVersionCheckMillis (millis2 tk) s)));
        step; unfold ret; cbn [outcome trace fst snd];
        rewrite ?app_nil_r; reflexivity.
  - rewrite bind_assoc. step. destruct (isEmpty (baseUrl s)); [reflexivity|].
    step. rewrite bind_run.
    destruct (outcome (checkAvailableVersion (tk_doc tk) (with_initialCheck true s)));
      step; unfold ret; cbn [outcome trace fst snd];
      rewrite ?app_nil_r; reflexivity.
Qed.

Lemma checked_at_baseUrl (tk : Tick) (s : OTA) :
  baseUrl (checked_at tk s) = baseUrl s.
Proof. unfold checked_at. destruct (initialCheck s); reflexivity. Qed.

(** X9. A tick that starts without a flagged release never touches the
    flasher and never restarts the device, even when its own version check
    finds a newer release: it returns, and the release it found is left for
    a later tick. *)
Theorem loop_installs_nothing_unflagged (tk : Tick) (s : OTA) :
  newReleaseAvailable s = false ->
  flash_events (trace (loop tk s)) = [] /\
  count_restarts (trace (loop tk s)) = 0%nat /\
  exists s', final (loop tk s) = Some s'.
Proof.
  intros Hflag. rewrite (loop_without_release tk s Hflag).
  destruct (due tk s); [|repeat split; exists s; reflexivity].
  destruct (isEmpty (baseUrl s)) eqn:Hurl;
    [repeat split; eexists; reflexivity|].
  destruct (checkAvailableVersion_facts (tk_doc tk) (checked_at tk s))
    as (b & s' & t & Hrun & _ & Hfl & Hrs & _).
  { rewrite checked_at_baseUrl. exact Hurl. }
  rewrite Hrun. unfold final. cbn [outcome trace fst snd flash_events filter is_flash].
  fold (flash_events t). rewrite Hfl. cbn [count_restarts]. rewrite Hrs.
  repeat split. exists s'. reflexivity.
Qed.

Lemma loop_installs_nothing_unflagged_witness :
  flash_events
    (trace (loop (mkTick 5000 5000 (mkMetadata (JString "2024-06-15") (JString "2.0"))
                    sample_download sample_download)
              (with_networkReady true sample_device))) = [].
Proof.
  apply (loop_installs_nothing_unflagged
           (mkTick 5000 5000 (mkMetadata (JString "2024-06-15") (JString "2.0"))
              sample_download sample_download)
           (with_networkReady true sample_device)).
  reflexivity.
Defined.

(** What a tick without a flagged release requests and records. *)
Lemma loop_without_release_facts (tk : Tick) (s : OTA) :
  newReleaseAvailable s = false ->
  requested (trace (loop tk s))
  = (if due tk s && negb (isEmpty (baseUrl s)) then [metadata_url s] else []) /\
  (due tk s = false -> loop tk s = (Returned tt s, [])) /\
  (due tk s = true ->
   exists s',
     final (loop tk s) = Some s' /\
     initialCheck s' = true /\
     lastVersionCheckMillis s'
     = (if initialCheck s then millis2 tk else lastVersionCheckMillis s)).
Proof.
  intros Hflag. rewrite (loop_without_release tk s Hflag).
  destruct (due tk s); cbn [andb];
    [|split; [reflexivity|]; split; [reflexivity | discriminate]].
  assert (Hchk : initialCheck (checked_at tk s) = true /\
                 lastVersionCheckMillis (checked_at tk s)
                 = (if initialCheck s then millis2 tk else lastVersionCheckMillis s)).
  { unfold checked_at. destruct (initialCheck s) eqn:E; split; cbn;
      rewrite ?E; reflexivity. }
  destruct (isEmpty (baseUrl s)) eqn:Hurl; cbn [negb].
  - split; [reflexivity|]. split; [discriminate|]. intros _.
    exists (checked_at tk s). split; [reflexivity | exact Hchk].
  - destruct (checkAvailableVersion_facts (tk_doc tk) (checked_at tk s))
      as (b & s' & t & Hrun & Hreq & _ & _ & Hs' & _).
    { rewrite checked_at_baseUrl. exact Hurl. }
    rewrite Hrun. unfold final. cbn [outcome trace fst snd requested].
    rewrite Hreq. unfold metadata_url. rewrite checked_at_baseUrl.
    split; [reflexivity|]. split; [discriminate|]. intros _.
    exists s'. split; [reflexivity|].
    destruct Hs' as [-> | [-> _]]; [exact Hchk|]. exact Hchk.
Qed.

(** X10. The schedule of the version check.  In a tick that starts with
    no flagged release, the metadata is requested exactly when the network
    is ready, a base URL is set, and either no check has been made since
    the object was created or at least the interval has elapsed since the
    recorded time of the last check (in 64-bit unsigned arithmetic); a tick
    that is not due does nothing at all.  A due tick records the time,
    except the very first one, which only marks that a check has been made;
    both happen even without a base URL. *)
Theorem loop_schedule (tk : Tick) (s : OTA) :
  newReleaseAvailable s = false ->
  requested (trace (loop tk s))
  = (if due tk s && negb (isEmpty (baseUrl s)) then [metadata_url s] else []) /\
  (due tk s = false -> loop tk s = (Returned tt s, [])) /\
  (due tk s = true ->
   exists s',
     final (loop tk s) = Some s' /\
     initialCheck s' = true /\
     lastVersionCheckMillis s'
     = (if initialCheck s then millis2 tk else lastVersionCheckMillis s)).
Proof. exact (loop_without_release_facts tk s). Qed.

Lemma loop_schedule_witness :
  loop (mkTick 5000 5000 (mkMetadata JAbsent JAbsent) sample_download sample_download)
    (with_initialCheck true (with_networkReady true sample_device))
  = (Returned tt (with_initialCheck true (with_networkReady true sample_device)), []).
Proof.
  apply (proj1 (proj2 (loop_schedule
    (mkTick 5000 5000 (mkMetadata JAbsent JAbsent) sample_download sample_download)
    (with_initialCheck true (with_networkReady true sample_device)) eq_refl))).
  reflexivity.
Defined.

Lemma wrap_u64_nonneg (z : Z) : 0 <= wrap_u64 z.
Proof. unfold wrap_u64. apply Z.mod_pos_bound. lia. Qed.

Lemma wrap_u64_le (z : Z) : 0 <= z -> wrap_u64 z <= z.
Proof. intros H. unfold wrap_u64. apply Z.mod_le; lia. Qed.

(** X11. With a check interval of zero, as [setVersionCheckInterval(0)]
    stores it, every tick with the network ready and a base URL asks the
    server for the metadata: nothing spaces the checks any more. *)
Theorem zero_interval_checks_every_tick
    (nvs : Nvs) (tk : Tick) (s s1 : OTA) :
  final (setVersionCheckInterval nvs 0 s) = Some s1 ->
  networkReady s = true ->
  isEmpty (baseUrl s) = false ->
  newReleaseAvailable s = false ->
  requested (trace (loop tk s1)) = [metadata_url s].
Proof.
  intros Hset Hnet Hurl Hflag.
  rewrite setVersionCheckInterval_final in Hset. injection Hset as <-.
  set (s1 := with_intervalVersionCheckMillis _ s).
  destruct (loop_without_release_facts tk s1 Hflag) as (Hreq & _).
  rewrite Hreq. unfold due. cbn [s1 with_intervalVersionCheckMillis networkReady
    initialCheck lastVersionCheckMillis intervalVersionCheckMillis baseUrl].
  rewrite Hnet, Hurl. change (wrap_u32 0) with 0.
  replace (wrap_u64 (millis1 tk - lastVersionCheckMillis s) <? 0) with false
    by (symmetry; apply Z.ltb_ge, wrap_u64_nonneg).
  rewrite orb_true_r. reflexivity.
Qed.

Lemma zero_interval_checks_every_tick_witness :
  requested
    (trace (loop (mkTick 5000 5000 (mkMetadata JAbsent JAbsent)
                    sample_download sample_download)
              (with_intervalVersionCheckMillis 0
                 (with_initialCheck true (with_networkReady true sample_device)))))
  = [metadata_url sample_device].
Proof.
  apply (zero_interval_checks_every_tick (mkNvs true 8)
           (mkTick 5000 5000 (mkMetadata JAbsent JAbsent)
              sample_download sample_download)
           (with_initialCheck true (with_networkReady true sample_device)));
    reflexivity.
Defined.

(** X12. After a regular check that found nothing newer, the following
    ticks do nothing until the interval has elapsed: a tick whose clock is
    less than the interval past the recorded time issues no request and
    leaves the object untouched. *)
Theorem loop_waits_for_interval (tk1 tk2 : Tick) (s s1 : OTA) :
  newReleaseAvailable s = false ->
  initialCheck s = true ->
  due tk1 s = true ->
  final (loop tk1 s) = Some s1 ->
  newReleaseAvailable s1 = false ->
  0 <= millis1 tk2 - millis2 tk1 < intervalVersionCheckMillis s ->
  loop tk2 s1 = (Returned tt s1, []).
Proof.
  intros Hflag Hini Hdue Hfin Hflag1 Hclock.
  destruct (loop_without_release_facts tk1 s Hflag) as (_ & _ & Hd).
  destruct (Hd Hdue) as (s' & Hfin' & Hini' & Hlast).
  rewrite Hfin in Hfin'. injection Hfin' as <-. rewrite Hini in Hlast.
  assert (K : config_kept s s1).
  { pose proof (loop_keeps_config tk1 s) as K. unfold final in Hfin.
    unfold outcome in K. destruct (fst (loop tk1 s)) as [[] s2|]; [|discriminate].
    injection Hfin as <-. exact (K tt s2 eq_refl). }
  destruct K as (_ & _ & Hint & _).
  destruct (loop_without_release_facts tk2 s1 Hflag1) as (_ & Hq & _).
  apply Hq. unfold due. rewrite Hini', Hlast, Hint. cbn [negb orb].
  replace (wrap_u64 (millis1 tk2 - millis2 tk1) <? intervalVersionCheckMillis s)
    with true.
  - cbn [negb]. apply andb_false_r.
  - symmetry. apply Z.ltb_lt.
    pose proof (wrap_u64_le (millis1 tk2 - millis2 tk1) (proj1 Hclock)). lia.
Qed.

Lemma loop_waits_for_interval_witness :
  loop (mkTick 86400000 86400000 (mkMetadata JAbsent JAbsent)
          sample_download sample_download)
    (with_lastVersionCheckMillis 86400000
       (with_initialCheck true (with_networkReady true sample_device)))
  = (Returned tt
       (with_lastVersionCheckMillis 86400000
          (with_initialCheck true (with_networkReady true sample_device))), []).
Proof.
  apply (loop_waits_for_interval
           (mkTick 86400000 86400000 (mkMetadata JAbsent JAbsent)
              sample_download sample_download)
           (mkTick 86400000 86400000 (mkMetadata JAbsent JAbsent)
              sample_download sample_download)
           (with_initialCheck true (with_networkReady true sample_device))).
  - reflexivity.
  - reflexivity.
  - vm_compute. reflexivity.
  - vm_compute. reflexivity.
  - reflexivity.
  - vm_compute. split; [discriminate | reflexivity].
Defined.

(** X13. A release found in one tick is installed by the next.  When a
    due tick receives well-formed metadata with a later date, it raises the
    flag and installs nothing; the following tick then downloads the file
    system image and the application image, in this order, and, both
    downloads succeeding, restarts the device exactly once. *)
Theorem release_found_then_installed (tk1 tk2 : Tick) (s : OTA) :
  newReleaseAvailable s = false ->
  due tk1 s = true ->
  isEmpty (baseUrl s) = false ->
  invalid_response (as_String (md_date (tk_doc tk1)))
                   (as_String (md_revision (tk_doc tk1))) = false ->
  gt (as_String (md_date (tk_doc tk1))) (currentFwDate s) = true ->
  result (updateFile (tk_fs tk2) (baseUrl s) "littlefs.bin" s) = Some true ->
  result (updateFile (tk_app tk2) (baseUrl s) "firmware.bin" s) = Some true ->
  exists s1,
    final (loop tk1 s) = Some s1 /\
    newReleaseAvailable s1 = true /\
    flash_events (trace (loop tk1 s)) = [] /\
    outcome (loop tk2 s1) = Restarted /\
    count_restarts (trace (loop tk2 s1)) = 1%nat /\
    begun (trace (loop tk2 s1)) = [U_SPIFFS; U_FLASH] /\
    count_update_end (trace (loop tk2 s1)) = 2%nat.
Proof.
  intros Hflag Hdue Hurl Hvalid Hgt Hfs Happ.
  rewrite (loop_without_release tk1 s Hflag), Hdue, Hurl.
  assert (Hurl1 : isEmpty (baseUrl (checked_at tk1 s)) = false)
    by (rewrite checked_at_baseUrl; exact Hurl).
  destruct (checkAvailableVersion_facts (tk_doc tk1) (checked_at tk1 s) Hurl1)
    as (b & s1 & t & Hrun & _ & Hfl & _ & _ & Hnew).
  assert (Hdate : currentFwDate (checked_at tk1 s) = currentFwDate s)
    by (unfold checked_at; destruct (initialCheck s); reflexivity).
  rewrite Hdate in Hnew. specialize (Hnew Hvalid Hgt).
  rewrite Hrun. unfold final. cbn [outcome trace fst snd].
  exists s1. split; [reflexivity|].
  assert (Hflag1 : newReleaseAvailable s1 = true) by (rewrite Hnew; reflexivity).
  assert (Hbase : baseUrl s1 = baseUrl s)
    by (rewrite Hnew; cbn; apply checked_at_baseUrl).
  split; [exact Hflag1|].
  split; [cbn [flash_events filter is_flash]; exact Hfl|].
  assert (Hurl' : isEmpty (baseUrl s1) = false) by (rewrite Hbase; exact Hurl).
  assert (Hexec : executeUpdate (tk_fs tk2) (tk_app tk2) s1
                  = (Restarted,
                     (trace (fs_run (tk_fs tk2) s1)
                      ++ trace (app_run (tk_app tk2) s1) ++ [EvRestart])%list)).
  { rewrite (executeUpdate_run _ _ _ Hurl'). unfold fs_run, app_run, fs_name, app_name.
    rewrite Hbase.
    rewrite (proj1 (updateFile_state_irrelevant (tk_fs tk2) (baseUrl s) "littlefs.bin"
                      (with_otaIsRunning true s1) s)), Hfs.
    rewrite (proj1 (updateFile_state_irrelevant (tk_app tk2) (baseUrl s) "firmware.bin"
                      (with_otaIsRunning false s1) s)), Happ.
    reflexivity. }
  assert (Hloop : loop tk2 s1
                  = (Restarted,
                     (trace (fs_run (tk_fs tk2) s1)
                      ++ trace (app_run (tk_app tk2) s1) ++ [EvRestart])%list)).
  { unfold loop. rewrite bind_get, Hflag1, bind_run, Hexec. reflexivity. }
  rewrite Hloop. cbn [outcome trace fst snd].
  unfold fs_run, app_run, fs_name, app_name.
  destruct (transfer_facts (tk_fs tk2) "littlefs.bin" s1 (with_otaIsRunning true s1) Hurl')
    as (b1 & R1 & _ & E1 & C1 & _ & B1 & _).
  destruct (transfer_facts (tk_app tk2) "firmware.bin" s1 (with_otaIsRunning false s1) Hurl')
    as (b2 & R2 & _ & E2 & C2 & _ & B2 & _).
  rewrite Hbase in *.
  rewrite (proj1 (updateFile_state_irrelevant (tk_fs tk2) (baseUrl s) "littlefs.bin"
                    (with_otaIsRunning true s1) s)), Hfs in R1.
  rewrite (proj1 (updateFile_state_irrelevant (tk_app tk2) (baseUrl s) "firmware.bin"
                    (with_otaIsRunning false s1) s)), Happ in R2.
  injection R1 as <-. injection R2 as <-.
  rewrite !count_restarts_app, !begun_app, !count_update_end_app,
    C1, C2, E1, E2, (B1 eq_refl), (B2 eq_refl).
  repeat split.
Qed.

Lemma release_found_then_installed_witness :
  exists s1,
    final (loop (mkTick 5000 5000 (mkMetadata (JString "2024-06-15") (JString "2.0"))
                   sample_download sample_download)
             (with_networkReady true sample_device)) = Some s1 /\
    newReleaseAvailable s1 = true /\
    outcome (loop (mkTick 6000 6000 (mkMetadata JAbsent JAbsent)
                     sample_download sample_download) s1) = Restarted.
Proof.
  destruct (release_found_then_installed
              (mkTick 5000 5000 (mkMetadata (JString "2024-06-15") (JString "2.0"))
                 sample_download sample_download)
              (mkTick 6000 6000 (mkMetadata JAbsent JAbsent)
                 sample_download sample_download)
              (with_networkReady true sample_device))
    as (s1 & H1 & H2 & _ & H3 & _); try reflexivity.
  exists s1. split; [exact H1|]. split; [exact H2 | exact H3].
Defined.

(** ** The upload callback *)

Lemma uploadHandler_unauthorised (c : UploadChunk) (s : OTA) :
  authorised s c = false ->
  uploadHandler c s
  = (Returned tt s,
     [EvLog "[OTA] Incorrect OTA request: Invalid password provided!";
      EvSend 401 (Json.message "Invalid OTA password provided!")]).
Proof.
  unfold authorised. intros H. apply orb_false_elim in H. destruct H as [H1 H2].
  unfold uploadHandler. rewrite bind_get, H1, H2. cbn [negb andb].
  step. reflexivity.
Qed.

(** The flag with which an authorised chunk returns. *)
Lemma uploadHandler_authorised (c : UploadChunk) (s : OTA) :
  authorised s c = true ->
  exists t,
    uploadHandler c s
    = (if up_final c && up_end_ok c then Restarted
       else Returned tt
              (if up_final c
                  || negb (up_written c =? up_len c)
                  || (up_index c =? 0) then
                 with_otaIsRunning
                   (negb (up_final c) && (up_written c =? up_len c)
                    && up_begin_ok c) s
               else s),
       t) /\
    bytes_written t = up_len c /\
    begun t = (if up_index c =? 0 then [filetype_of (up_filename c)] else []) /\
    count_update_end t = (if up_final c then 1 else 0)%nat /\
    count_restarts t = (if up_final c && up_end_ok c then 1 else 0)%nat /\
    flash_events t <> [].
Proof.
  unfold authorised. intros H.
  unfold uploadHandler. rewrite bind_get.
  replace (negb (length (otaPassword s) =? 0)
           && negb (authenticate c "ota" (otaPassword s))) with false
    by (rewrite <- negb_orb, H; reflexivity).
  unfold bind, emit, modify, ret, restart, logMessage.
  destruct (up_index c =? 0), (up_begin_ok c), (up_written c =? up_len c),
    (up_final c), (up_end_ok c); cbn [negb andb orb];
    (eexists; split; [reflexivity|];
     cbn [app bytes_written begun count_update_end count_restarts
          flash_events filter is_flash];
     split; [lia|]; split; [reflexivity|]; split; [reflexivity|];
     split; [reflexivity | discriminate]).
Qed.

Lemma length_zero_empty (p : string) : (length p =? 0) = true -> p = EmptyString.
Proof.
  unfold length. destruct p; [reflexivity|].
  intros H. apply Z.eqb_eq in H. simpl in H. lia.
Qed.

(** X14. The upload callback touches the flasher only for a request that
    passes the password test: when a password is set and the request does
    not carry the user [ota] with exactly that password, the callback
    answers 401 and does nothing else, the object being left as it was;
    with an empty password every request passes. *)
Theorem upload_needs_password (c : UploadChunk) (s : OTA) :
  (authorised s c = false ->
   uploadHandler c s
   = (Returned tt s,
      [EvLog "[OTA] Incorrect OTA request: Invalid password provided!";
       EvSend 401 (Json.message "Invalid OTA password provided!")])) /\
  (flash_events (trace (uploadHandler c s)) <> [] ->
   otaPassword s = EmptyString \/ up_credentials c = Some ("ota", otaPassword s)) /\
  (otaPassword s = EmptyString -> authorised s c = true).
Proof.
  split; [apply uploadHandler_unauthorised|]. split.
  - intros Hfl. destruct (authorised s c) eqn:Ha.
    + unfold authorised in Ha. apply orb_true_iff in Ha. destruct Ha as [H|H].
      * left. apply length_zero_empty. exact H.
      * right. unfold authenticate in H.
        destruct (up_credentials c) as [[u p]|]; [|discriminate].
        apply andb_true_iff in H. destruct H as [Hu Hp].
        apply String.eqb_eq in Hu, Hp. subst. reflexivity.
    + rewrite (uploadHandler_unauthorised c s Ha) in Hfl.
      exfalso. apply Hfl. reflexivity.
  - intros H. unfold authorised. rewrite H. reflexivity.
Qed.

Lemma upload_needs_password_witness :
  uploadHandler sample_first_chunk (with_otaPassword "secret" sample_device)
  = (Returned tt (with_otaPassword "secret" sample_device),
     [EvLog "[OTA] Incorrect OTA request: Invalid password provided!";
      EvSend 401 (Json.message "Invalid OTA password provided!")]).
Proof.
  apply (proj1 (upload_needs_password sample_first_chunk
                  (with_otaPassword "secret" sample_device))).
  reflexivity.
Defined.

(** X15. The upload callback restarts the device exactly when the request
    passes the password test, the chunk is the final one and [Update.end]
    succeeds; a failure of [Update.begin] or a short [Update.write] in the
    same call does not prevent it.  A chunk that is not final calls
    [Update.end] never. *)
Theorem upload_restart_condition (c : UploadChunk) (s : OTA) :
  (outcome (uploadHandler c s) = Restarted <->
   authorised s c = true /\ up_final c = true /\ up_end_ok c = true) /\
  count_restarts (trace (uploadHandler c s))
  = (if authorised s c && up_final c && up_end_ok c then 1 else 0)%nat /\
  count_update_end (trace (uploadHandler c s))
  = (if authorised s c && up_final c then 1 else 0)%nat.
Proof.
  destruct (authorised s c) eqn:Ha.
  - destruct (uploadHandler_authorised c s Ha)
      as (t & Hrun & _ & _ & Hend & Hrst & _).
    rewrite Hrun. cbn [outcome trace fst snd andb]. rewrite Hend, Hrst.
    split; [|split; reflexivity].
    destruct (up_final c), (up_end_ok c); cbn [andb];
      split; try discriminate; try (intros (_ & H1 & H2); discriminate);
      repeat split.
  - rewrite (uploadHandler_unauthorised c s Ha). cbn.
    split; [|split; reflexivity].
    split; [discriminate | intros (H & _); discriminate].
Qed.

Lemma upload_restart_condition_witness :
  outcome (uploadHandler
             (mkUploadChunk None "firmware.bin" 4 4 true true 0 true EmptyString)
             sample_device) = Restarted.
Proof.
  apply (proj1 (upload_restart_condition
                  (mkUploadChunk None "firmware.bin" 4 4 true true 0 true EmptyString)
                  sample_device)).
  repeat split.
Defined.

(** X16. The running flag after a chunk that is not the final one: a
    chunk that [Update.write] does not take in full clears the flag; a
    first chunk written in full leaves the flag set exactly when
    [Update.begin] succeeded; a later chunk written in full leaves the
    object as it was. *)
Theorem upload_running_flag (c : UploadChunk) (s : OTA) :
  authorised s c = true ->
  up_final c = false ->
  (up_written c <> up_len c ->
   final (uploadHandler c s) = Some (with_otaIsRunning false s)) /\
  (up_written c = up_len c -> up_index c = 0 ->
   final (uploadHandler c s) = Some (with_otaIsRunning (up_begin_ok c) s)) /\
  (up_written c = up_len c -> up_index c <> 0 ->
   final (uploadHandler c s) = Some s).
Proof.
  intros Ha Hfin.
  destruct (uploadHandler_authorised c s Ha) as (t & Hrun & _).
  rewrite Hrun, Hfin. unfold final. cbn [outcome fst andb orb negb].
  split; [|split].
  - intros H. apply Z.eqb_neq in H. rewrite H. reflexivity.
  - intros H H0. apply Z.eqb_eq in H, H0. rewrite H, H0. reflexivity.
  - intros H H0. apply Z.eqb_eq in H. apply Z.eqb_neq in H0.
    rewrite H, H0. reflexivity.
Qed.

Lemma upload_running_flag_witness :
  final (uploadHandler sample_first_chunk sample_device)
  = Some (with_otaIsRunning true sample_device).
Proof.
  apply (proj1 (proj2 (upload_running_flag sample_first_chunk sample_device
                         eq_refl eq_refl))); reflexivity.
Defined.

Lemma authorised_same_password (s s' : OTA) (c : UploadChunk) :
  otaPassword s' = otaPassword s -> authorised s' c = authorised s c.
Proof. intros H. unfold authorised. rewrite H. reflexivity. Qed.

Lemma upload_sequence_run (last : UploadChunk) (cs : list UploadChunk) :
  forall s,
    Forall (fun c => authorised s c = true /\ up_final c = false) cs ->
    authorised s last = true ->
    up_final last = true ->
    up_end_ok last = true ->
    exists t,
      run_ops (map OpUpload (cs ++ [last])) s = (Restarted, t) /\
      bytes_written t = upload_bytes (cs ++ [last]) /\
      begun t = upload_begins (cs ++ [last]) /\
      count_update_end t = 1%nat /\
      count_restarts t = 1%nat.
Proof.
  induction cs as [|c cs IH]; intros s Hall Ha Hfin Hend.
  - destruct (uploadHandler_authorised last s Ha)
      as (t & Hrun & Hb & Hbeg & He & Hr & _).
    rewrite Hfin, Hend in *. cbn [andb] in *.
    exists t. cbn [app map run_ops run_op]. rewrite bind_run, Hrun.
    cbn [outcome trace fst snd upload_bytes upload_begins].
    split; [reflexivity|]. rewrite Hb, Hbeg, He, Hr.
    split; [lia|]. split; [|split; reflexivity].
    destruct (up_index last =? 0); reflexivity.
  - inversion Hall as [|? ? [Hc Hcf] Hrest]; subst.
    destruct (uploadHandler_authorised c s Hc)
      as (t & Hrun & Hb & Hbeg & He & Hr & _).
    rewrite Hcf in *. cbn [andb orb] in *.
    set (s1 := if negb (up_written c =? up_len c) || (up_index c =? 0)
               then with_otaIsRunning
                      (negb false && (up_written c =? up_len c) && up_begin_ok c) s
               else s) in *.
    assert (Hpw : otaPassword s1 = otaPassword s).
    { unfold s1. destruct (negb (up_written c =? up_len c) || (up_index c =? 0));
        reflexivity. }
    destruct (IH s1) as (t' & Hrun' & Hb' & Hbeg' & He' & Hr').
    + eapply Forall_impl; [|exact Hrest]. intros c' [H1 H2].
      rewrite (authorised_same_password s s1 c' Hpw). split; assumption.
    + rewrite (authorised_same_password s s1 last Hpw). exact Ha.
    + exact Hfin.
    + exact Hend.
    + exists (t ++ t')%list.
      cbn [app map run_ops run_op]. rewrite bind_run, Hrun.
      cbn [outcome trace fst snd]. cbn [app map] in Hrun'. rewrite Hrun'.
      cbn [outcome trace fst snd upload_bytes upload_begins].
      split; [reflexivity|].
      rewrite bytes_written_app, begun_app, count_update_end_app,
        count_restarts_app, Hb, Hbeg, He, Hr, Hb', Hbeg', He', Hr'.
      split; [reflexivity|]. split; [|split; reflexivity].
      destruct (up_index c =? 0); reflexivity.
Qed.

(** X17. A whole upload.  For a sequence of requests that all pass the
    password test, the last one being the only final chunk and
    [Update.end] succeeding, the device restarts exactly once, after all
    chunks have been handed to [Update.write] in order; the bytes written
    are the sum of the chunk lengths, [Update.begin] has been called for
    every chunk that carries index 0, and [Update.end] once.  None of this
    depends on the answers of [Update.begin] and [Update.write]. *)
Theorem upload_sequence_restarts_once
    (cs : list UploadChunk) (last : UploadChunk) (s : OTA) :
  Forall (fun c => authorised s c = true /\ up_final c = false) cs ->
  authorised s last = true ->
  up_final last = true ->
  up_end_ok last = true ->
  let r := run_ops (map OpUpload (cs ++ [last])) s in
  outcome r = Restarted /\
  bytes_written (trace r) = upload_bytes (cs ++ [last]) /\
  begun (trace r) = upload_begins (cs ++ [last]) /\
  count_update_end (trace r) = 1%nat /\
  count_restarts (trace r) = 1%nat.
Proof.
  intros Hall Ha Hfin Hend. cbv zeta.
  destruct (upload_sequence_run last cs s Hall Ha Hfin Hend) as (t & Hrun & H).
  rewrite Hrun. cbn [outcome trace fst snd]. split; [reflexivity | exact H].
Qed.

Lemma upload_sequence_restarts_once_witness :
  outcome (run_ops
             (map OpUpload
                ([sample_first_chunk]
                 ++ [mkUploadChunk None "firmware.bin" 4 6 true true 6 true
                       EmptyString]))
             sample_device) = Restarted /\
  bytes_written
    (trace (run_ops
              (map OpUpload
                 ([sample_first_chunk]
                  ++ [mkUploadChunk None "firmware.bin" 4 6 true true 6 true
                        EmptyString]))
              sample_device)) = 10.
Proof.
  destruct (upload_sequence_restarts_once [sample_first_chunk]
              (mkUploadChunk None "firmware.bin" 4 6 true true 6 true EmptyString)
              sample_device)
    as (H1 & H2 & _).
  - repeat constructor.
  - reflexivity.
  - reflexivity.
  - reflexivity.
  - split; [exact H1 | exact H2].
Defined.

(** ** The configuration handlers *)

Lemma setBaseUrl_run (nvs : Nvs) (u : string) (s : OTA) :
  exists t, setBaseUrl nvs u s = (Returned tt (with_baseUrl u s), t) /\
            sent t = [] /\
            flash_events t = [].
Proof.
  unfold setBaseUrl.
  destruct (nvs_begin_ok nvs); [destruct (negb (nvs_put nvs =? 0))|];
    eexists; (split; [step; reflexivity | split; reflexivity]).
Qed.

Lemma setOtaPassword_run (nvs : Nvs) (p : string) (s : OTA) :
  exists t, setOtaPassword nvs p s = (Returned tt (with_otaPassword p s), t) /\
            sent t = [] /\
            flash_events t = [] /\
            (nvs_begin_ok nvs = true -> nvs_put nvs <> 0 ->
             In ("[OTA] Updated OtaPassword in NVS to " ++ p ++ nl) (logged t)).
Proof.
  unfold setOtaPassword.
  destruct (nvs_begin_ok nvs); [destruct (nvs_put nvs =? 0) eqn:E|];
    eexists; (split; [step; reflexivity|]);
    (split; [reflexivity|]); (split; [reflexivity|]).
  - intros _ H. apply Z.eqb_eq in E. contradiction.
  - intros _ _. left. reflexivity.
  - discriminate.
Qed.

Lemma setVersionCheckInterval_run (nvs : Nvs) (m : Z) (s : OTA) :
  exists t,
    setVersionCheckInterval nvs m s
    = (Returned tt (with_intervalVersionCheckMillis (wrap_u32 (m * 60 * 1000)) s), t) /\
    sent t = [] /\
    flash_events t = [].
Proof.
  unfold setVersionCheckInterval. rewrite <- minutes_to_millis_wrap.
  destruct (nvs_begin_ok nvs); [destruct (negb (nvs_put nvs =? 0))|];
    eexists; (split; [step; reflexivity | split; reflexivity]).
Qed.

Lemma sent_app (t u : list Event) : sent (t ++ u) = (sent t ++ sent u)%list.
Proof.
  induction t as [|e t IH]; simpl; [reflexivity|].
  destruct e; rewrite ?IH; reflexivity.
Qed.

Lemma logged_app (t u : list Event) : logged (t ++ u) = (logged t ++ logged u)%list.
Proof.
  induction t as [|e t IH]; simpl; [reflexivity|].
  destruct e; rewrite ?IH; reflexivity.
Qed.

Lemma config_member_run {V} (member : option V) (set : V -> M unit)
    (upd : V -> OTA -> OTA) (msg : OTA -> string) (n : Z) (s : OTA) :
  (forall v s0, exists t,
      set v s0 = (Returned tt (upd v s0), t) /\ sent t = [] /\ flash_events t = []) ->
  exists t,
    config_member member set msg n s
    = (Returned (match member with Some _ => n + 1 | None => n end)
                (match member with Some v => upd v s | None => s end), t) /\
    sent t = [] /\
    flash_events t = [] /\
    (forall v, member = Some v -> In (msg (upd v s)) (logged t)).
Proof.
  intros Hset. unfold config_member. destruct member as [v|].
  - destruct (Hset v s) as (t & Hrun & Hs & Hf).
    exists (t ++ [EvLog (msg (upd v s))])%list.
    split; [rewrite bind_run, Hrun; step; reflexivity|].
    rewrite sent_app, flash_events_app, Hs, Hf.
    split; [reflexivity|]. split; [reflexivity|].
    intros v' E. injection E as <-. rewrite logged_app.
    apply in_or_app. right. left. reflexivity.
  - exists []. split; [reflexivity|]. split; [reflexivity|].
    split; [reflexivity | discriminate].
Qed.

Lemma configPostHandler_run (b : ConfigPost) (s : OTA) :
  exists t,
    configPostHandler b s = (Returned tt (configured b s), t) /\
    sent t = [match cp_baseUrl b, cp_otaPassword b, cp_interval b with
              | None, None, None => 422
              | _, _, _ => 200
              end] /\
    flash_events t = [] /\
    (forall p, cp_otaPassword b = Some p ->
       In ("[OTA][CONFIG] otaPassword changed to " ++ p) (logged t)).
Proof.
  unfold configPostHandler, configured. cbv zeta.
  destruct (config_member_run (cp_baseUrl b) (setBaseUrl (cp_nvs_url b)) with_baseUrl
              (fun s => "[OTA][CONFIG] baseUrl changed to " ++ baseUrl s) 0 s)
    as (t1 & R1 & S1 & F1 & _).
  { intros v s0. apply setBaseUrl_run. }
  set (s1 := match cp_baseUrl b with Some u => with_baseUrl u s | None => s end) in *.
  set (n1 := match cp_baseUrl b with Some _ => 0 + 1 | None => 0 end) in *.
  destruct (config_member_run (cp_otaPassword b) (setOtaPassword (cp_nvs_password b))
              with_otaPassword
              (fun s => "[OTA][CONFIG] otaPassword changed to " ++ otaPassword s) n1 s1)
    as (t2 & R2 & S2 & F2 & L2).
  { intros v s0. destruct (setOtaPassword_run (cp_nvs_password b) v s0)
      as (t & H1 & H2 & H3 & _). exists t. repeat split; assumption. }
  set (s2 := match cp_otaPassword b with
             | Some p => with_otaPassword p s1 | None => s1 end) in *.
  set (n2 := match cp_otaPassword b with Some _ => n1 + 1 | None => n1 end) in *.
  destruct (config_member_run (cp_interval b)
              (setVersionCheckInterval (cp_nvs_interval b))
              (fun m => with_intervalVersionCheckMillis (wrap_u32 (m * 60 * 1000)))
              (fun s => "[OTA][CONFIG] intervalVersionCheck changed to "
                        ++ ofZ (intervalVersionCheckMillis s / 60 / 1000)
                        ++ " minutes") n2 s2)
    as (t3 & R3 & S3 & F3 & _).
  { intros v s0. apply setVersionCheckInterval_run. }
  set (n3 := match cp_interval b with Some _ => n2 + 1 | None => n2 end) in *.
  exists (t1 ++ t2 ++ t3
          ++ [if n3 =? 0 then EvSend 422 (Json.message "Invalid data")
              else EvSend 200 (Json.message "Config updated")])%list.
  split.
  { rewrite bind_run, R1. cbn [outcome trace fst snd].
    rewrite bind_run, R2. cbn [outcome trace fst snd].
    rewrite bind_run, R3. cbn [outcome trace fst snd].
    destruct (n3 =? 0); reflexivity. }
  rewrite !sent_app, !flash_events_app, !logged_app, S1, S2, S3, F1, F2, F3.
  cbn [app].
  split.
  { unfold n3, n2, n1.
    destruct (cp_baseUrl b), (cp_otaPassword b), (cp_interval b); reflexivity. }
  split; [destruct (n3 =? 0); reflexivity|].
  intros p Hp. apply in_or_app. right. apply in_or_app. left.
  specialize (L2 p Hp). cbn [with_otaPassword otaPassword] in L2. exact L2.
Qed.

(** X18. POST [/config] applies every member that has the awaited type
    (base URL, then password, then interval), answers 200 when at least one
    was applied and 422, with the object unchanged, when none was.  It never
    touches the flasher, and neither the new object nor the answer depends
    on whether the preferences store accepted the writes: the new values
    are in force in memory even when they could not be saved. *)
Theorem configPost_applies_members (b : ConfigPost) (s : OTA) :
  final (configPostHandler b s) = Some (configured b s) /\
  sent (trace (configPostHandler b s))
  = [match cp_baseUrl b, cp_otaPassword b, cp_interval b with
     | None, None, None => 422
     | _, _, _ => 200
     end] /\
  flash_events (trace (configPostHandler b s)) = [] /\
  (cp_baseUrl b = None -> cp_otaPassword b = None -> cp_interval b = None ->
   final (configPostHandler b s) = Some s) /\
  (forall n1 n2 n3,
     final (configPostHandler
              (mkConfigPost (cp_baseUrl b) (cp_otaPassword b) (cp_interval b)
                 n1 n2 n3) s)
     = final (configPostHandler b s) /\
     sent (trace (configPostHandler
                    (mkConfigPost (cp_baseUrl b) (cp_otaPassword b) (cp_interval b)
                       n1 n2 n3) s))
     = sent (trace (configPostHandler b s))).
Proof.
  destruct (configPostHandler_run b s) as (t & Hrun & Hsent & Hfl & _).
  rewrite Hrun. unfold final. cbn [outcome trace fst snd]. rewrite Hsent, Hfl.
  split; [reflexivity|]. split; [reflexivity|]. split; [reflexivity|].
  split.
  - intros H1 H2 H3. unfold configured. rewrite H1, H2, H3. reflexivity.
  - intros n1 n2 n3.
    destruct (configPostHandler_run
                (mkConfigPost (cp_baseUrl b) (cp_otaPassword b) (cp_interval b)
                   n1 n2 n3) s) as (t' & Hrun' & Hsent' & _).
    rewrite Hrun'. cbn [outcome trace fst snd]. rewrite Hsent'.
    split; reflexivity.
Qed.

Lemma configPost_applies_members_witness :
  final (configPostHandler
           (mkConfigPost None None None (mkNvs true 8) (mkNvs true 8) (mkNvs true 8))
           sample_device) = Some sample_device.
Proof.
  apply (proj1 (proj2 (proj2 (proj2 (configPost_applies_members
    (mkConfigPost None None None (mkNvs true 8) (mkNvs true 8) (mkNvs true 8))
    sample_device))))); reflexivity.
Defined.

Lemma minutes_round_trip (m : Z) :
  0 <= m <= 71582 -> wrap_u32 (m * 60 * 1000) / 60 / 1000 = m.
Proof.
  intros H. unfold wrap_u32. rewrite Z.mod_small by lia.
  rewrite Z.div_div by lia.
  replace (m * 60 * 1000) with (m * (60 * 1000)) by lia.
  apply Z.div_mul. lia.
Qed.

(** X19. What POST [/config] stores, GET [/config] reports: after a POST
    carrying a base URL and an interval of 0 to 71582 minutes, the document
    of the GET handler holds that base URL and that number of minutes, and
    the empty string for the password, whichever password was posted. *)
Theorem configPost_then_configGet
    (b : ConfigPost) (u : string) (m : Z) (s s' : OTA) :
  cp_baseUrl b = Some u ->
  cp_interval b = Some m ->
  0 <= m <= 71582 ->
  final (configPostHandler b s) = Some s' ->
  configDocument s'
  = [ ("baseUrl", Json.Str u);
      ("otaPassword", Json.Str EmptyString);
      ("intervalVersionCheck", Json.Num m) ] /\
  trace (configGetHandler s')
  = [EvSend 200 (Json.serializeJson
                   [ ("baseUrl", Json.Str u);
                     ("otaPassword", Json.Str EmptyString);
                     ("intervalVersionCheck", Json.Num m) ])].
Proof.
  intros Hu Hm Hrange Hfin.
  destruct (configPostHandler_run b s) as (t & Hrun & _).
  rewrite Hrun in Hfin. injection Hfin as <-.
  assert (Hdoc : configDocument (configured b s)
                 = [ ("baseUrl", Json.Str u);
                     ("otaPassword", Json.Str EmptyString);
                     ("intervalVersionCheck", Json.Num m) ]).
  { unfold configDocument, configured. rewrite Hu, Hm.
    destruct (cp_otaPassword b); cbn; rewrite (minutes_round_trip m Hrange);
      reflexivity. }
  split; [exact Hdoc|].
  unfold configGetHandler. step. rewrite Hdoc. reflexivity.
Qed.

Lemma configPost_then_configGet_witness :
  configDocument
    (with_intervalVersionCheckMillis 3600000
       (with_otaPassword "secret" (with_baseUrl "http://new.test" sample_device)))
  = [ ("baseUrl", Json.Str "http://new.test");
      ("otaPassword", Json.Str EmptyString);
      ("intervalVersionCheck", Json.Num 60) ].
Proof.
  apply (proj1 (configPost_then_configGet
           (mkConfigPost (Some "http://new.test") (Some "secret") (Some 60)
              (mkNvs true 8) (mkNvs false 0) (mkNvs true 0))
           "http://new.test" 60 sample_device
           (with_intervalVersionCheckMillis 3600000
              (with_otaPassword "secret"
                 (with_baseUrl "http://new.test" sample_device)))
           eq_refl eq_refl ltac:(lia) ltac:(vm_compute; reflexivity))).
Defined.

(** X20. POST [/config] asks for no credentials: a request carrying a
    password replaces the OTA password whatever the old one was, writes the
    new password in clear into the log, and from then on an upload passes
    the password test exactly when the new password is empty or the
    request carries the user [ota] with the new password. *)
Theorem configPost_replaces_password (b : ConfigPost) (p : string) (s : OTA) :
  cp_otaPassword b = Some p ->
  In ("[OTA][CONFIG] otaPassword changed to " ++ p)
     (logged (trace (configPostHandler b s))) /\
  exists s',
    final (configPostHandler b s) = Some s' /\
    otaPassword s' = p /\
    forall c,
      authorised s' c = true <->
      p = EmptyString \/ up_credentials c = Some ("ota", p).
Proof.
  intros Hp. destruct (configPostHandler_run b s) as (t & Hrun & _ & _ & Hlog).
  rewrite Hrun. cbn [trace snd]. split; [exact (Hlog p Hp)|].
  exists (configured b s). split; [reflexivity|].
  assert (Hpw : otaPassword (configured b s) = p).
  { unfold configured. rewrite Hp. destruct (cp_interval b); reflexivity. }
  split; [exact Hpw|]. intros c. unfold authorised. rewrite Hpw. split.
  - intros H. apply orb_true_iff in H. destruct H as [H|H].
    + left. apply length_zero_empty. exact H.
    + right. unfold authenticate in H.
      destruct (up_credentials c) as [[u q]|]; [|discriminate].
      apply andb_true_iff in H. destruct H as [Hu Hq].
      apply String.eqb_eq in Hu, Hq. subst. reflexivity.
  - intros [-> | H]; [reflexivity|].
    unfold authenticate. rewrite H, !String.eqb_refl. apply orb_true_r.
Qed.

Lemma configPost_replaces_password_witness :
  In ("[OTA][CONFIG] otaPassword changed to " ++ "secret")
     (logged (trace (configPostHandler
                       (mkConfigPost None (Some "secret") None
                          (mkNvs true 8) (mkNvs true 8) (mkNvs true 8))
                       (with_otaPassword "old" sample_device)))).
Proof.
  apply (proj1 (configPost_replaces_password
                  (mkConfigPost None (Some "secret") None
                     (mkNvs true 8) (mkNvs true 8) (mkNvs true 8))
                  "secret" (with_otaPassword "old" sample_device) eq_refl)).
Defined.

(** ** The constructor and the WiFi events *)

(** X21. The constructor starts from the member initialisers and takes
    each of base URL, interval and password from the preferences when they
    open and hold the key, keeping the default (no URL, 24 hours, no
    password) otherwise; the network counts as ready exactly when WiFi is
    connected at that moment, no release is flagged and no check counts as
    made.  When the preferences open, the password in force is written in
    clear into the log. *)
Theorem constructor_loads_configuration (bt : Boot) :
  exists s,
    final (OTAWEBUPDATER_ctor bt initialOTA) = Some s /\
    baseUrl s = (if bt_nvs_ok bt then stored_or (bt_baseUrl bt) EmptyString
                 else EmptyString) /\
    intervalVersionCheckMillis s
    = (if bt_nvs_ok bt then stored_or (bt_interval bt) 86400000 else 86400000) /\
    otaPassword s = (if bt_nvs_ok bt then stored_or (bt_password bt) EmptyString
                     else EmptyString) /\
    networkReady s = bt_connected bt /\
    newReleaseAvailable s = false /\
    otaIsRunning s = false /\
    initialCheck s = false /\
    (bt_nvs_ok bt = true ->
     In ("[OTA] Loaded OtaPassword from NVS: " ++ otaPassword s)
        (logged (trace (OTAWEBUPDATER_ctor bt initialOTA)))).
Proof.
  unfold OTAWEBUPDATER_ctor.
  destruct (bt_nvs_ok bt), (bt_connected bt);
    unfold bind, get, modify, emit, ret, logMessage, final, trace;
    cbn [fst snd app logged initialOTA with_baseUrl with_otaPassword
         with_intervalVersionCheckMillis with_networkReady
         baseUrl otaPassword intervalVersionCheckMillis networkReady
         newReleaseAvailable otaIsRunning initialCheck
         lastVersionCheckMillis currentFwDate currentFwRelease];
    eexists; (split; [reflexivity|]);
    cbn [baseUrl otaPassword intervalVersionCheckMillis networkReady
         newReleaseAvailable otaIsRunning initialCheck];
    repeat (split; [reflexivity|]);
    first [discriminate | intros _; right; right; left; reflexivity].
Qed.

Lemma constructor_loads_configuration_witness :
  exists s,
    final (OTAWEBUPDATER_ctor
             (mkBoot true (Some "http://ota.test") None (Some "secret") "app0" 16 true)
             initialOTA) = Some s /\
    baseUrl s = "http://ota.test" /\
    intervalVersionCheckMillis s = 86400000 /\
    In ("[OTA] Loaded OtaPassword from NVS: " ++ otaPassword s)
       (logged (trace (OTAWEBUPDATER_ctor
                         (mkBoot true (Some "http://ota.test") None (Some "secret")
                            "app0" 16 true)
                         initialOTA))).
Proof.
  destruct (constructor_loads_configuration
              (mkBoot true (Some "http://ota.test") None (Some "secret") "app0" 16 true))
    as (s & H1 & H2 & H3 & _ & _ & _ & _ & _ & H4).
  exists s. split; [exact H1|]. split; [exact H2|]. split; [exact H3|].
  apply H4. reflexivity.
Defined.

Lemma onWiFiEvent_run (ev : WiFiEvent) (s : OTA) :
  onWiFiEvent ev s
  = if registered ev
    then (Returned tt (with_networkReady true s),
          [EvLog "[OTA][WIFI] onEvent() Network connected"])
    else (Returned tt s, []).
Proof. destruct ev; reflexivity. Qed.

Lemma onWiFiEvents_run (evs : list WiFiEvent) :
  forall s, exists t,
    onWiFiEvents evs s
    = (Returned tt (if existsb registered evs then with_networkReady true s else s), t) /\
    Forall (fun m => m = "[OTA][WIFI] onEvent() Network connected") (logged t) /\
    flash_events t = [].
Proof.
  induction evs as [|ev evs IH]; intros s.
  - exists []. split; [reflexivity|]. split; [constructor | reflexivity].
  - cbn [onWiFiEvents existsb]. rewrite bind_run, onWiFiEvent_run.
    destruct (registered ev); cbn [outcome trace fst snd orb].
    + destruct (IH (with_networkReady true s)) as (t & Hrun & Hlog & Hfl).
      rewrite Hrun. cbn [outcome trace fst snd]. eexists. split.
      * destruct (existsb registered evs); reflexivity.
      * cbn [app logged flash_events filter is_flash].
        split; [constructor; [reflexivity | exact Hlog] | exact Hfl].
    + destruct (IH s) as (t & Hrun & Hlog & Hfl).
      rewrite Hrun. cbn [outcome trace fst snd]. eexists.
      split; [reflexivity|]. split; [exact Hlog | exact Hfl].
Qed.

(** X22. The WiFi events never mark the network as not ready.  Every
    event with a registered handler, the three disconnection events as much
    as the four address events, runs [eventHandlerUp]: after any sequence of
    events the network flag is set if it was set before or if any such
    event occurred, nothing else in the object has changed, and the line of
    [eventHandlerDown] is never logged. *)
Theorem wifi_events_only_set_network_ready (evs : list WiFiEvent) (s : OTA) :
  exists s',
    final (onWiFiEvents evs s) = Some s' /\
    networkReady s' = networkReady s || existsb registered evs /\
    with_networkReady false s' = with_networkReady false s /\
    (forall ev, registered ev = true <-> ev <> OTHER_EVENT) /\
    ~ In "[OTA][WIFI] onEvent() Network disconnected"
         (logged (trace (onWiFiEvents evs s))).
Proof.
  destruct (onWiFiEvents_run evs s) as (t & Hrun & Hlog & _).
  rewrite Hrun. unfold final. cbn [outcome trace fst snd].
  eexists. split; [reflexivity|].
  split; [destruct (existsb registered evs); cbn;
          [rewrite orb_true_r | rewrite orb_false_r]; reflexivity|].
  split; [destruct (existsb registered evs); reflexivity|].
  split.
  - intros ev. destruct ev; cbn; split; intros H;
      first [reflexivity | discriminate | exfalso; apply H; reflexivity].
  - intros H. rewrite Forall_forall in Hlog. specialize (Hlog _ H). discriminate.
Qed.

(** ** Answers other than 200 *)

(** X23. When the server answers the image request with anything but 200,
    [updateFile] returns [false] without a single call to the flasher, and,
    a base URL being given, with the running flag cleared. *)
Theorem updateFile_needs_status_200
    (d : Download) (url file : string) (s : OTA) :
  http_code d <> 200 ->
  result (updateFile d url file s) = Some false /\
  flash_events (trace (updateFile d url file s)) = [] /\
  (isEmpty url = false ->
   final (updateFile d url file s) = Some (with_otaIsRunning false s)).
Proof.
  intros Hc. apply Z.eqb_neq in Hc. unfold updateFile.
  destruct (isEmpty url).
  - step. repeat split. discriminate.
  - destruct (alloc_ok d); cbn [negb].
    + rewrite Hc. step. unfold ret, result, final.
      cbn [outcome trace fst snd]. repeat split.
    + step. unfold ret, result, final. cbn [outcome trace fst snd]. repeat split.
Qed.

Lemma updateFile_needs_status_200_witness :
  result (updateFile (mkDownload true 404 10 [mkPoll true 10 10]) sample_url
            "firmware.bin" sample_device) = Some false /\
  flash_events (trace (updateFile (mkDownload true 404 10 [mkPoll true 10 10])
                         sample_url "firmware.bin" sample_device)) = [].
Proof.
  destruct (updateFile_needs_status_200 (mkDownload true 404 10 [mkPoll true 10 10])
              sample_url "firmware.bin" sample_device) as (H1 & H2 & _).
  - discriminate.
  - split; [exact H1 | exact H2].
Defined.
